(** * Textual rewriters of the EdgeWorker migration scripts

    A shallow embedding of the four Python scripts that rewrite
    [EdgeWorker.ts]: the regex rewriter ([fix_create_activity.py]), the
    signature rewriter ([fix_method_signatures.py]), the literal-block
    rewriter ([fix_last_three.py]) and the line scanner
    ([fix_all_create_activity.py]).  The earlier variant of the regex
    rewriter kept next to the line scanner is not covered.

    Text is a list of 8-bit characters.  The character classes follow
    CPython on code points below 256 ([\s] and [str.strip] use the same
    white-space table), and so does [str.capitalize], up to the two
    characters whose title case lies beyond 255 (see [Text.title_outside]). *)

From Stdlib Require Import Ascii String Bool Arith ZArith Lia List.
From Stdlib Require Import Numbers.DecimalString.
Import ListNotations.

Set Implicit Arguments.

(** ** Text *)

Module Text.

Definition text := list ascii.

Definition T (s : string) : text := list_ascii_of_string s.

Definition nl : ascii := ascii_of_nat 10.
Definition tab : ascii := ascii_of_nat 9.
Definition dq : ascii := ascii_of_nat 34.

Definition tabs (n : nat) : text := repeat tab n.

(** Python's [str.isspace] / [\s] on code points below 256. *)
Definition is_space (c : ascii) : bool :=
  let n := nat_of_ascii c in
  ((9 <=? n) && (n <=? 13)) || ((28 <=? n) && (n <=? 32))
  || (n =? 133) || (n =? 160).

(** The letters below 256 that [str.lower] changes: A to Z, and the
    accented capitals 192 to 222 without the multiplication sign (215). *)
Definition is_upper (c : ascii) : bool :=
  let n := nat_of_ascii c in
  ((65 <=? n) && (n <=? 90))
  || ((192 <=? n) && (n <=? 222) && negb (n =? 215)).

(** The letters below 256 whose title case is the letter 32 places before
    them: a to z, and the accented small letters 224 to 254 without the
    division sign (247). *)
Definition is_lower (c : ascii) : bool :=
  let n := nat_of_ascii c in
  ((97 <=? n) && (n <=? 122))
  || ((224 <=? n) && (n <=? 254) && negb (n =? 247)).

Definition upper (c : ascii) : ascii :=
  if is_lower c then ascii_of_nat (nat_of_ascii c - 32) else c.

Definition lower (c : ascii) : ascii :=
  if is_upper c then ascii_of_nat (nat_of_ascii c + 32) else c.

(** The sharp s, whose title case is the two letters [Ss]. *)
Definition sharp_s : ascii := ascii_of_nat 223.

(** The title case of a character (CPython 3.8 and later use it for the
    first character of [str.capitalize]). *)
Definition title (c : ascii) : text :=
  if Ascii.eqb c sharp_s then T "Ss" else [upper c].



(** [str.capitalize]: the first character in title case, the others
    lower-cased. *)
Definition capitalize (s : text) : text :=
  match s with
  | [] => []
  | c :: s' => title c ++ map lower s'
  end.

(** [strip_prefix p s] is [Some r] when [s = p ++ r]. *)
Fixpoint strip_prefix (p s : text) : option text :=
  match p with
  | [] => Some s
  | c :: p' =>
      match s with
      | d :: s' => if Ascii.eqb c d then strip_prefix p' s' else None
      | [] => None
      end
  end.

Definition startswith (s p : text) : bool :=
  match strip_prefix p s with Some _ => true | None => false end.

Definition endswith (s p : text) : bool := startswith (rev s) (rev p).

(** [p in s] on strings. *)
Fixpoint contains (p s : text) : bool :=
  startswith s p ||
  match s with
  | [] => false
  | _ :: s' => contains p s'
  end.

Fixpoint dropwhile (f : ascii -> bool) (s : text) : text :=
  match s with
  | c :: s' => if f c then dropwhile f s' else s
  | [] => []
  end.

Definition lstrip (s : text) : text := dropwhile is_space s.
Definition rstrip (s : text) : text := rev (dropwhile is_space (rev s)).
Definition strip (s : text) : text := rstrip (lstrip s).

(** [s[:-1]]. *)
Definition drop_last (s : text) : text := removelast s.

(** [sep.join(parts)]. *)
Fixpoint join (sep : text) (parts : list text) : text :=
  match parts with
  | [] => []
  | [p] => p
  | p :: rest => p ++ sep ++ join sep rest
  end.

(** [s.replace(old, new)]: every non-overlapping occurrence, leftmost
    first.  [skip] counts the characters of the occurrence still to be
    passed over. *)
Fixpoint replace_from (old new : text) (s : text) (skip : nat) : text :=
  match s with
  | [] =>
      match skip with
      | 0 => if startswith [] old then new else []
      | S _ => []
      end
  | c :: s' =>
      match skip with
      | S k => replace_from old new s' k
      | 0 =>
          if startswith s old then
            new ++ match length old with
                   | 0 => c :: replace_from old new s' 0
                   | S k => replace_from old new s' k
                   end
          else c :: replace_from old new s' 0
      end
  end.

Definition replace (old new s : text) : text := replace_from old new s 0.

(** [s.count(p)]: non-overlapping occurrences. *)
Fixpoint count_from (p : text) (s : text) (skip : nat) : nat :=
  match s with
  | [] =>
      match skip with
      | 0 => if startswith [] p then 1 else 0
      | S _ => 0
      end
  | _ :: s' =>
      match skip with
      | S k => count_from p s' k
      | 0 =>
          if startswith s p then
            S (match length p with
               | 0 => count_from p s' 0
               | S k => count_from p s' k
               end)
          else count_from p s' 0
      end
  end.

Definition count (p s : text) : nat := count_from p s 0.


Definition no_leading_space (s : text) : bool :=
  match s with
  | [] => true
  | c :: _ => negb (is_space c)
  end.



Definition str_of_nat (n : nat) : text :=
  T (NilZero.string_of_uint (Nat.to_uint n)).

End Text.

Import Text.

(** ** Regular expressions

    The fragment of Python's [re] syntax the scripts use: literals,
    character sets, greedy [*] and [+] on a character set, [?], numbered
    groups, [$] and concatenation. *)

Module Re.

Definition cset := ascii -> bool.

Definition space : cset := is_space.
Definition any_but (cs : text) : cset :=
  fun c => negb (existsb (Ascii.eqb c) cs).
(** [[^,\s]] *)
Definition any_but_space_or (cs : text) : cset :=
  fun c => negb (is_space c) && negb (existsb (Ascii.eqb c) cs).
(** [.] without DOTALL *)
Definition dot : cset := any_but [nl].
Definition only (d : ascii) : cset := fun c => Ascii.eqb c d.

Inductive regex : Type :=
| Lit (l : text)
| Cls (c : cset)
| Star (c : cset)
| Plus (c : cset)
| Opt (r : regex)
| Grp (n : nat) (r : regex)
| Eos
| Seq (r1 r2 : regex).

(** Captured groups, most recent binding first. *)
Definition env := list (nat * text).

Fixpoint group (n : nat) (e : env) : text :=
  match e with
  | [] => []
  | (m, t) :: e' => if Nat.eqb n m then t else group n e'
  end.

(** Remainders left by [c*], longest match first. *)
Fixpoint greedy (c : cset) (s : text) : list text :=
  match s with
  | a :: s' => if c a then greedy c s' ++ [s] else [s]
  | [] => [[]]
  end.

(** All the ways [r] matches a prefix of [s], in the order a backtracking
    matcher tries them; each result is the captures and the unread rest. *)
Fixpoint run (r : regex) (s : text) (e : env) : list (env * text) :=
  match r with
  | Lit l =>
      match strip_prefix l s with
      | Some s' => [(e, s')]
      | None => []
      end
  | Cls c =>
      match s with
      | a :: s' => if c a then [(e, s')] else []
      | [] => []
      end
  | Star c => map (pair e) (greedy c s)
  | Plus c =>
      match s with
      | a :: s' => if c a then map (pair e) (greedy c s') else []
      | [] => []
      end
  | Opt r1 => run r1 s e ++ [(e, s)]
  | Grp n r1 =>
      map (fun '(e1, s1) => ((n, firstn (length s - length s1) s) :: e1, s1))
          (run r1 s e)
  | Eos =>
      match s with
      | [] => [(e, s)]
      | [c] => if Ascii.eqb c nl then [(e, s)] else []
      | _ => []
      end
  | Seq r1 r2 => flat_map (fun '(e1, s1) => run r2 s1 e1) (run r1 s e)
  end.

(** [re.match]: the first way the pattern matches at the start of [s]. *)
Definition re_match (r : regex) (s : text) : option (env * text) :=
  hd_error (run r s []).

(** [re.search]: the leftmost position at which the pattern matches. *)
Fixpoint re_search (r : regex) (s : text) : option env :=
  match re_match r s with
  | Some (e, _) => Some e
  | None =>
      match s with
      | [] => None
      | _ :: s' => re_search r s'
      end
  end.

(** [re.sub(pattern, repl, s)] with a callable [repl].  [skip] counts the
    characters of the current match still to be passed over. *)
Fixpoint sub_from (r : regex) (f : env -> text) (s : text) (skip : nat) : text :=
  match s with
  | [] =>
      match skip with
      | 0 => match re_match r [] with Some (e, _) => f e | None => [] end
      | S _ => []
      end
  | c :: s' =>
      match skip with
      | S k => sub_from r f s' k
      | 0 =>
          match re_match r s with
          | Some (e, rest) =>
              f e ++ match length s - length rest with
                     | 0 => c :: sub_from r f s' 0
                     | S k => sub_from r f s' k
                     end
          | None => c :: sub_from r f s' 0
          end
      end
  end.

Definition re_sub (r : regex) (f : env -> text) (s : text) : text :=
  sub_from r f s 0.

(** Number of replacements [re.sub] makes. *)
Fixpoint matches_from (r : regex) (s : text) (skip : nat) : nat :=
  match s with
  | [] =>
      match skip with
      | 0 => match re_match r [] with Some _ => 1 | None => 0 end
      | S _ => 0
      end
  | _ :: s' =>
      match skip with
      | S k => matches_from r s' k
      | 0 =>
          match re_match r s with
          | Some (_, rest) =>
              S (match length s - length rest with
                 | 0 => matches_from r s' 0
                 | S k => matches_from r s' k
                 end)
          | None => matches_from r s' 0
          end
      end
  end.

Definition re_count (r : regex) (s : text) : nat := matches_from r s 0.

(** Whether the pattern matches at some position of [s]. *)
Fixpoint has_match (r : regex) (s : text) : bool :=
  match re_match r s with
  | Some _ => true
  | None =>
      match s with
      | [] => false
      | _ :: s' => has_match r s'
      end
  end.

(** The character after a greedy run does not belong to the set. *)
Definition stops (c : cset) (s : text) : bool :=
  match s with
  | [] => true
  | b :: _ => negb (c b)
  end.

(** No match starts inside [pre] when [pre] is followed by [rest]. *)
Fixpoint matches_none (r : regex) (pre rest : text) : bool :=
  match pre with
  | [] => true
  | _ :: pre' =>
      match re_match r (pre ++ rest) with
      | Some _ => false
      | None => matches_none r pre' rest
      end
  end.

(** Replacement templates such as [r'f(\1)']. *)
Inductive titem : Type :=
| TLit (l : text)
| TGrp (n : nat).

Definition expand (tpl : list titem) (e : env) : text :=
  flat_map (fun it => match it with TLit l => l | TGrp n => group n e end) tpl.

(** Concatenation of a list of pieces. *)
Fixpoint seq (rs : list regex) : regex :=
  match rs with
  | [] => Lit []
  | r :: rs' => Seq r (seq rs')
  end.

End Re.

Import Re.

(** ** The signature rewriter, [fix_method_signatures.py] *)

Module Signatures.

(** [\s*\}] *)
Definition close_brace : list regex := [Star space; Lit (T "}")].

(** The shape shared by fixes 1 and 3:
    [await linearClient\.NAME\(\{\s*filter:\s*\{\s*FIELD:\s*\{\s*id:\s*\{\s*eq:\s*([^}]+)\s*\}\s*\}\s*\}\s*\}\)] *)
Definition filter_pattern (name field : string) : regex :=
  seq ([Lit (T "await linearClient." ++ T name ++ T "({"); Star space;
        Lit (T "filter:"); Star space;
        Lit (T "{"); Star space; Lit (T field ++ T ":"); Star space;
        Lit (T "{"); Star space; Lit (T "id:"); Star space;
        Lit (T "{"); Star space; Lit (T "eq:"); Star space;
        Grp 1 (Plus (any_but (T "}")))]
       ++ close_brace ++ close_brace ++ close_brace ++ close_brace
       ++ [Lit (T ")")]).

Definition pat_fetchComments : regex := filter_pattern "fetchComments" "issue".
Definition repl_fetchComments : list titem :=
  [TLit (T "await linearClient.fetchComments("); TGrp 1; TLit (T ")")].

(** [await linearClient\.fetchComment\(\{\s*id:\s*([^}]+)\s*\}\)] *)
Definition pat_fetchComment : regex :=
  seq [Lit (T "await linearClient.fetchComment({"); Star space;
       Lit (T "id:"); Star space;
       Grp 1 (Plus (any_but (T "}")));
       Star space; Lit (T "})")].
Definition repl_fetchComment : list titem :=
  [TLit (T "await linearClient.fetchComment("); TGrp 1; TLit (T ")")].

Definition pat_fetchWorkflowStates : regex :=
  filter_pattern "fetchWorkflowStates" "team".
Definition repl_fetchWorkflowStates : list titem :=
  [TLit (T "await linearClient.fetchWorkflowStates("); TGrp 1; TLit (T ")")].

(** [\.parent([^I])] *)
Definition pat_parent : regex :=
  seq [Lit (T ".parent"); Grp 1 (Cls (any_but (T "I")))].
Definition repl_parent : list titem := [TLit (T ".parentId"); TGrp 1].

Definition fix1 (c : text) : text := re_sub pat_fetchComments (expand repl_fetchComments) c.
Definition fix2 (c : text) : text := re_sub pat_fetchComment (expand repl_fetchComment) c.
Definition fix3 (c : text) : text :=
  re_sub pat_fetchWorkflowStates (expand repl_fetchWorkflowStates) c.
Definition fix4 (c : text) : text := re_sub pat_parent (expand repl_parent) c.

(** The whole script: the four substitutions in source order. *)
Definition fix_method_signatures (content : text) : text :=
  fix4 (fix3 (fix2 (fix1 content))).

End Signatures.

(** ** The regex rewriter, [fix_create_activity.py] *)

Module RegexRewriter.

(** [\s+agentSessionId: ([^,]+),\s+content: \{\s+type: Q([^Q]+)Q,\s+body: ([^}]+)\},\s+]
    where Q stands for the double quote. *)
Definition fields : list regex :=
  [Plus space; Lit (T "agentSessionId: "); Grp 2 (Plus (any_but (T ",")));
   Lit (T ","); Plus space; Lit (T "content: {"); Plus space;
   Lit (T "type: "); Lit [dq]; Grp 3 (Plus (any_but [dq]));
   Lit [dq]; Lit (T ","); Plus space; Lit (T "body: ");
   Grp 4 (Plus (any_but (T "}"))); Lit (T "},"); Plus space].

(** [[^}]+result[^}]+\}] *)
Definition failure_block : list regex :=
  [Plus (any_but (T "}")); Lit (T "result"); Plus (any_but (T "}")); Lit (T "}")].

(** [\s+if \(result\.success\) \{\s+(console\.log\([^)]+\);\s+)\} else \{[^}]+result[^}]+\}] *)
Definition branch : list regex :=
  [Plus space; Lit (T "if (result.success) {"); Plus space;
   Grp 5 (seq [Lit (T "console.log("); Plus (any_but (T ")")); Lit (T ");");
               Plus space]);
   Lit (T "} else {")] ++ failure_block.

Definition pattern1 : regex :=
  seq ([Grp 1 (Plus (only tab));
        Lit (T "const result = await linearClient.createAgentActivity({")]
       ++ fields ++ [Lit (T "});")] ++ branch).

Definition pattern2 : regex :=
  seq ([Grp 1 (Plus (only tab));
        Lit (T "await linearClient.createAgentActivity({")]
       ++ fields ++ [Lit (T "});")]).

Definition pattern3 : regex :=
  seq ([Grp 1 (Plus (only tab)); Lit (T "const activityInput = {")]
       ++ fields
       ++ [Lit (T "};"); Plus space;
           Lit (T "const result = await linearClient.createAgentActivity(activityInput);")]
       ++ branch).

(** [body = match.group(4).strip()], then one trailing comma removed. *)
Definition fix_body (raw : text) : text :=
  let body := strip raw in
  if endswith body (T ",") then drop_last body else body.

(** The first three lines of every replacement. *)
Definition call_head (indent session_id type_enum : text) : text :=
  indent ++ T "await linearClient.createAgentActivity(" ++ session_id
  ++ T ", {" ++ [nl]
  ++ indent ++ [tab] ++ T "type: AgentActivityContentType." ++ type_enum
  ++ T "," ++ [nl]
  ++ indent ++ [tab] ++ T "body: ".

Definition fix_inline_with_result (m : env) : text :=
  let indent := group 1 m in
  let session_id := group 2 m in
  let type_str := group 3 m in
  let body := fix_body (group 4 m) in
  let log_line := group 5 m in
  let type_enum := capitalize type_str in
  call_head indent session_id type_enum ++ body ++ T "," ++ [nl]
  ++ indent ++ T "});" ++ [nl] ++ [nl]
  ++ indent ++ log_line.

Definition fix_await_no_result (m : env) : text :=
  let indent := group 1 m in
  let session_id := group 2 m in
  let type_str := group 3 m in
  let body_content := group 4 m in
  let type_enum := capitalize type_str in
  call_head indent session_id type_enum ++ body_content ++ [nl]
  ++ indent ++ T "});".

Definition fix_activity_input (m : env) : text :=
  let indent := group 1 m in
  let session_id := group 2 m in
  let type_str := group 3 m in
  let body := fix_body (group 4 m) in
  let log_line := group 5 m in
  let type_enum := capitalize type_str in
  call_head indent session_id type_enum ++ body ++ T "," ++ [nl]
  ++ indent ++ T "});" ++ [nl]
  ++ indent ++ log_line.

Definition pass1 (c : text) : text := re_sub pattern1 fix_inline_with_result c.
Definition pass2 (c : text) : text := re_sub pattern2 fix_await_no_result c.
Definition pass3 (c : text) : text := re_sub pattern3 fix_activity_input c.

(** The script: the new content and the [fixes_applied] counter. *)
Definition fix_create_activity (content : text) : text * nat :=
  let c1 := pass1 content in
  let c2 := pass2 c1 in
  let c3 := pass3 c2 in
  (c3, re_count pattern1 content + re_count pattern2 c1 + re_count pattern3 c2).

End RegexRewriter.

(** ** The literal-block rewriter, [fix_last_three.py] *)

Module LiteralBlocks.

Definition old1 : text :=
  T "await linearClient.createAgentActivity({" ++ [nl]
  ++ tabs 9 ++ T "agentSessionId: session.linearAgentActivitySessionId," ++ [nl]
  ++ tabs 9 ++ T "content: {" ++ [nl]
  ++ tabs 10 ++ T "type: " ++ [dq] ++ T "response" ++ [dq] ++ T "," ++ [nl]
  ++ tabs 10 ++ T "body: `**Repository Removed from Configuration**\n\nThis repository (\`${repo.name}\`) has been removed from the Cyrus configuration. All active sessions for this repository have been stopped.\n\nIf you need to continue working on this issue, please contact your administrator to restore the repository configuration.`," ++ [nl]
  ++ tabs 9 ++ T "}," ++ [nl]
  ++ tabs 8 ++ T "});".

Definition new1 : text :=
  T "await linearClient.createAgentActivity(session.linearAgentActivitySessionId, {" ++ [nl]
  ++ tabs 9 ++ T "type: AgentActivityContentType.Response," ++ [nl]
  ++ tabs 9 ++ T "body: `**Repository Removed from Configuration**\n\nThis repository (\`${repo.name}\`) has been removed from the Cyrus configuration. All active sessions for this repository have been stopped.\n\nIf you need to continue working on this issue, please contact your administrator to restore the repository configuration.`," ++ [nl]
  ++ tabs 8 ++ T "});".

Definition old2 : text :=
  T "const activityInput = {" ++ [nl]
  ++ tabs 4 ++ T "agentSessionId: linearAgentActivitySessionId," ++ [nl]
  ++ tabs 4 ++ T "content: {" ++ [nl]
  ++ tabs 5 ++ T "type: " ++ [dq] ++ T "thought" ++ [dq] ++ T "," ++ [nl]
  ++ tabs 5 ++ T "body: `Entering '${selectedPromptType}' mode because of the '${triggerLabel}' label. I'll follow the ${selectedPromptType} process...`," ++ [nl]
  ++ tabs 4 ++ T "}," ++ [nl]
  ++ tabs 3 ++ T "};" ++ [nl]
  ++ [nl]
  ++ tabs 3 ++ T "const result = await linearClient.createAgentActivity(activityInput);" ++ [nl]
  ++ tabs 3 ++ T "if (result.success) {" ++ [nl]
  ++ tabs 4 ++ T "console.log(" ++ [nl]
  ++ tabs 5 ++ T "`[EdgeWorker] Posted system prompt selection thought for session ${linearAgentActivitySessionId} (${selectedPromptType} mode)`," ++ [nl]
  ++ tabs 4 ++ T ");" ++ [nl]
  ++ tabs 3 ++ T "} else {" ++ [nl]
  ++ tabs 4 ++ T "console.error(" ++ [nl]
  ++ tabs 5 ++ T "`[EdgeWorker] Failed to post system prompt selection thought:`," ++ [nl]
  ++ tabs 5 ++ T "result," ++ [nl]
  ++ tabs 4 ++ T ");" ++ [nl]
  ++ tabs 3 ++ T "}".

Definition new2 : text :=
  T "await linearClient.createAgentActivity(linearAgentActivitySessionId, {" ++ [nl]
  ++ tabs 4 ++ T "type: AgentActivityContentType.Thought," ++ [nl]
  ++ tabs 4 ++ T "body: `Entering '${selectedPromptType}' mode because of the '${triggerLabel}' label. I'll follow the ${selectedPromptType} process...`," ++ [nl]
  ++ tabs 3 ++ T "});" ++ [nl]
  ++ tabs 3 ++ T "console.log(" ++ [nl]
  ++ tabs 4 ++ T "`[EdgeWorker] Posted system prompt selection thought for session ${linearAgentActivitySessionId} (${selectedPromptType} mode)`," ++ [nl]
  ++ tabs 3 ++ T ");".

Definition old3 : text :=
  T "const activityInput = {" ++ [nl]
  ++ tabs 4 ++ T "agentSessionId: linearAgentActivitySessionId," ++ [nl]
  ++ tabs 4 ++ T "content: {" ++ [nl]
  ++ tabs 5 ++ T "type: " ++ [dq] ++ T "thought" ++ [dq] ++ T "," ++ [nl]
  ++ tabs 5 ++ T "body: message," ++ [nl]
  ++ tabs 4 ++ T "}," ++ [nl]
  ++ tabs 3 ++ T "};" ++ [nl]
  ++ [nl]
  ++ tabs 3 ++ T "const result = await linearClient.createAgentActivity(activityInput);" ++ [nl]
  ++ tabs 3 ++ T "if (result.success) {" ++ [nl]
  ++ tabs 4 ++ T "console.log(" ++ [nl]
  ++ tabs 5 ++ T "`[EdgeWorker] Posted instant prompted acknowledgment thought for session ${linearAgentActivitySessionId} (streaming: ${isStreaming})`," ++ [nl]
  ++ tabs 4 ++ T ");" ++ [nl]
  ++ tabs 3 ++ T "} else {" ++ [nl]
  ++ tabs 4 ++ T "console.error(" ++ [nl]
  ++ tabs 5 ++ T "`[EdgeWorker] Failed to post instant prompted acknowledgment:`," ++ [nl]
  ++ tabs 5 ++ T "result," ++ [nl]
  ++ tabs 4 ++ T ");" ++ [nl]
  ++ tabs 3 ++ T "}".

Definition new3 : text :=
  T "await linearClient.createAgentActivity(linearAgentActivitySessionId, {" ++ [nl]
  ++ tabs 4 ++ T "type: AgentActivityContentType.Thought," ++ [nl]
  ++ tabs 4 ++ T "body: message," ++ [nl]
  ++ tabs 3 ++ T "});" ++ [nl]
  ++ tabs 3 ++ T "console.log(" ++ [nl]
  ++ tabs 4 ++ T "`[EdgeWorker] Posted instant prompted acknowledgment thought for session ${linearAgentActivitySessionId} (streaming: ${isStreaming})`," ++ [nl]
  ++ tabs 3 ++ T ");".

(** The file content and what has been printed so far, one entry per
    [print] call (UTF-8 encoded). *)
Record state : Type := { content : text; console : list text }.

Definition print (msg : text) (st : state) : state :=
  {| content := content st; console := console st ++ [msg] |}.

(** [if old in content: content = content.replace(old, new); print(ok)
     else: print(missing)] *)
Definition apply_fix (old new ok missing : text) (st : state) : state :=
  if contains old (content st)
  then print ok {| content := replace old new (content st); console := console st |}
  else print missing st.

Definition ok1 : text := T "✓ Fixed #1: Repository removal message".
Definition ok2 : text := T "✓ Fixed #2: System prompt selection".
Definition ok3 : text := T "✓ Fixed #3: Instant prompted acknowledgment".
Definition missing (k : nat) : text := T "✗ Could not find pattern #" ++ str_of_nat k.

Definition fix1 : state -> state := apply_fix old1 new1 ok1 (missing 1).
Definition fix2 : state -> state := apply_fix old2 new2 ok2 (missing 2).
Definition fix3 : state -> state := apply_fix old3 new3 ok3 (missing 3).

Definition report_counts (suffix : text) (st : state) : state :=
  let st := print (T "  createAgentActivity calls: "
                   ++ str_of_nat (count (T "createAgentActivity") (content st))) st in
  print (T "  result.success checks: "
         ++ str_of_nat (count (T "result.success") (content st)) ++ suffix) st.

(** What the [print] calls put on standard output: each argument followed
    by a newline; and the number of lines of a text, one per newline. *)
Definition stdout (st : state) : text :=
  concat (map (fun msg => msg ++ [nl]) (console st)).

Definition line_count (s : text) : nat := length (filter (Ascii.eqb nl) s).

(** The whole script; the final content is what is written back. *)
Definition fix_last_three (content0 : text) : state :=
  let st := {| content := content0; console := [] |} in
  let st := report_counts [] (print (T "Before fixes:") st) in
  let st := fix3 (fix2 (fix1 st)) in
  report_counts (T " (should be 2 - from downloadAttachment)")
                (print (nl :: T "After fixes:") st).

End LiteralBlocks.

(** ** The line scanner, [fix_all_create_activity.py] *)

Module LineScanner.

(** [re.search(r'agentSessionId:\s*([^,\s]+)', line)] *)
Definition extract_session_id (line : text) : option text :=
  match re_search (seq [Lit (T "agentSessionId:"); Star space;
                        Grp 1 (Plus (any_but_space_or (T ",")))]) line with
  | Some m => Some (group 1 m)
  | None => None
  end.

(** [re.search] for [type:], white space and a quoted word; the word is
    capitalized. *)
Definition extract_type (line : text) : option text :=
  match re_search (seq [Lit (T "type:"); Star space; Lit [dq];
                        Grp 1 (Plus (any_but [dq])); Lit [dq]]) line with
  | Some m => Some (capitalize (group 1 m))
  | None => None
  end.

(** [re.search(r'body:\s*(.+)', line)], stripped. *)
Definition extract_body_start (line : text) : option text :=
  match re_search (seq [Lit (T "body:"); Star space; Grp 1 (Plus dot)]) line with
  | Some m => Some (strip (group 1 m))
  | None => None
  end.

Inductive exn : Type :=
| NameError (name : string)
| AttributeError (attr : string).

Inductive result (A : Type) : Type :=
| Ok (a : A)
| Raise (e : exn).
Arguments Ok {A} a.
Arguments Raise {A} e.

Definition bind {A B : Type} (m : result A) (k : A -> result B) : result B :=
  match m with
  | Ok a => k a
  | Raise e => Raise e
  end.

Notation "x <- m ;; k" := (bind m (fun x => k))
  (at level 61, m at next level, right associativity).
Notation "' pat <- m ;; k" := (bind m (fun x => let 'pat := x in k))
  (at level 61, pat pattern, m at next level, right associativity).

(** A module-level name that may not have been assigned yet. *)
Inductive pyvar : Type :=
| Unbound
| PyNone
| PyStr (s : text).

(** The fields collected while reading one call. *)
Record fields : Type := {
  session_id : option text;
  type_val : option text;
  body_lines : list text;
  body_started : bool
}.

Definition no_fields : fields :=
  {| session_id := None; type_val := None; body_lines := []; body_started := false |}.

Definition strip_comma (s : text) : text :=
  if endswith s (T ",") then drop_last s else s.

Definition set_session (fs : fields) (l : text) : fields :=
  {| session_id := extract_session_id l; type_val := type_val fs;
     body_lines := body_lines fs; body_started := body_started fs |}.

Definition set_type (fs : fields) (l : text) : fields :=
  {| session_id := session_id fs; type_val := extract_type l;
     body_lines := body_lines fs; body_started := body_started fs |}.

Definition add_body (fs : fields) (b : text) : fields :=
  {| session_id := session_id fs; type_val := type_val fs;
     body_lines := body_lines fs ++ [b]; body_started := body_started fs |}.

(** The [body:] line: [body_start.endswith] fails when the search found
    nothing. *)
Definition start_body (fs : fields) (l : text) : result fields :=
  match extract_body_start l with
  | None => Raise (AttributeError "endswith")
  | Some body_start =>
      Ok {| session_id := session_id fs; type_val := type_val fs;
            body_lines := body_lines fs ++ [strip_comma body_start];
            body_started := true |}
  end.

(** The loop that reads the object parameter in patterns 1 and 3; [rest]
    is [lines[i:]].  Returns the cursor after the loop. *)
Fixpoint read_call (rest : list text) (i : nat) (fs : fields) : result (nat * fields) :=
  match rest with
  | [] => Ok (i, fs)
  | l :: rest' =>
      if contains (T "agentSessionId:") l then read_call rest' (S i) (set_session fs l)
      else if contains (T "type:") l then read_call rest' (S i) (set_type fs l)
      else if contains (T "body:") l then
        fs' <- start_body fs l ;; read_call rest' (S i) fs'
      else if body_started fs && negb (startswith (strip l) (T "}")) then
        let body_line := strip_comma (strip l) in
        read_call rest' (S i)
          (match body_line with [] => fs | _ => add_body fs body_line end)
      else if contains (T "});") l then Ok (S i, fs)
      else read_call rest' (S i) fs
  end.

(** [^\s*\};?\s*$]; without MULTILINE the search can only succeed at
    position 0. *)
Definition closing_line (l : text) : bool :=
  match re_match (seq [Star space; Lit (T "}"); Opt (Lit (T ";")); Star space; Eos]) l with
  | Some _ => true
  | None => false
  end.

(** The loop that reads the [activityInput] literal in pattern 2. *)
Fixpoint read_input (rest : list text) (i : nat) (fs : fields) : result (nat * fields) :=
  match rest with
  | [] => Ok (i, fs)
  | l :: rest' =>
      if closing_line l then Ok (i, fs)
      else if contains (T "agentSessionId:") l then read_input rest' (S i) (set_session fs l)
      else if contains (T "type:") l then read_input rest' (S i) (set_type fs l)
      else if contains (T "body:") l then
        fs' <- start_body fs l ;; read_input rest' (S i) fs'
      else if body_started fs then
        let body_line := strip l in
        read_input rest' (S i)
          (match body_line with
           | [] => fs
           | _ => if startswith body_line (T "}") then fs
                  else add_body fs (strip_comma body_line)
           end)
      else read_input rest' (S i) fs
  end.

Definition count_open (l : text) (brace_count : Z) : Z :=
  if contains (T "{") l then (brace_count + 1)%Z else brace_count.

(** [lines[a:b]] *)
Definition slice (lines : list text) (a b : nat) : list text :=
  firstn (b - a) (skipn a lines).

(** The success/failure branch of pattern 1, entered with the cursor on
    the line after [if (result.success)]; [rest] is [lines[i:]]. *)
Fixpoint branch1 (lines : list text) (if_start : nat) (rest : list text) (i : nat)
    (brace_count : Z) (else_found : bool) (success_log : pyvar) : nat * pyvar :=
  match rest with
  | [] => (i, success_log)
  | l :: rest' =>
      let brace_count := count_open l brace_count in
      if contains (T "}") l then
        let brace_count := (brace_count - 1)%Z in
        if (brace_count =? 0)%Z && negb else_found then
          let success_log :=
            match find (contains (T "console.log")) (slice lines (if_start + 1) i) with
            | Some lj => PyStr lj
            | None => success_log
            end in
          match rest' with
          | l' :: rest'' =>
              if contains (T "else") l'
              then branch1 lines if_start rest'' (S (S i)) 0%Z true success_log
              else (S i, success_log)
          | [] => (S i, success_log)
          end
        else if (brace_count =? 0)%Z && else_found then (S i, success_log)
        else branch1 lines if_start rest' (S i) brace_count else_found success_log
      else branch1 lines if_start rest' (S i) brace_count else_found success_log
  end.

(** The inner loop of pattern 2 that skips the failure block. *)
Fixpoint skip_else (rest : list text) (i : nat) (brace_count : Z) : nat :=
  match rest with
  | [] => i
  | l :: rest' =>
      let brace_count := count_open l brace_count in
      if contains (T "}") l then
        let brace_count := (brace_count - 1)%Z in
        if (brace_count =? 0)%Z then S i else skip_else rest' (S i) brace_count
      else skip_else rest' (S i) brace_count
  end.

(** The success/failure branch of pattern 2. *)
Fixpoint branch2 (rest : list text) (i : nat) (brace_count : Z) (success_log : pyvar)
    : nat * pyvar :=
  match rest with
  | [] => (i, success_log)
  | l :: rest' =>
      let brace_count := count_open l brace_count in
      let success_log := if contains (T "console.log") l then PyStr l else success_log in
      if contains (T "}") l then
        let brace_count := (brace_count - 1)%Z in
        if (brace_count =? 0)%Z then
          match rest' with
          | l' :: rest'' =>
              if contains (T "else") l'
              then (skip_else rest'' (S (S i)) 0%Z, success_log)
              else (S i, success_log)
          | [] => (S i, success_log)
          end
        else branch2 rest' (S i) brace_count success_log
      else branch2 rest' (S i) brace_count success_log
  end.

(** How an f-string renders a value that may be [None]. *)
Definition fmt (o : option text) : text :=
  match o with
  | Some t => t
  | None => T "None"
  end.

(** [len(line) - len(line.lstrip())] *)
Definition indent_of (line : text) : nat := length line - length (lstrip line).

(** [' '.join(body_lines) if body_lines else 'body'] *)
Definition body_str (body_lines : list text) : text :=
  match body_lines with
  | [] => T "body"
  | _ => join (T " ") body_lines
  end.

(** The four lines of the reconstructed call. *)
Definition call_lines (indent : nat) (fs : fields) : list text :=
  let indent_str := tabs (indent / 4) in
  [indent_str ++ T "await linearClient.createAgentActivity(" ++ fmt (session_id fs)
     ++ T ", {" ++ [nl];
   indent_str ++ [tab] ++ T "type: AgentActivityContentType." ++ fmt (type_val fs)
     ++ T "," ++ [nl];
   indent_str ++ [tab] ++ T "body: " ++ body_str (body_lines fs) ++ T "," ++ [nl];
   indent_str ++ T "});" ++ [nl]].

(** [if success_log: new_lines.append(success_log)] *)
Definition with_log (new_lines : list text) (success_log : pyvar) : result (list text) :=
  match success_log with
  | Unbound => Raise (NameError "success_log")
  | PyNone => Ok new_lines
  | PyStr [] => Ok new_lines
  | PyStr s => Ok (new_lines ++ [s])
  end.

Record state : Type := {
  lines : list text;
  cursor : nat;
  success_log : pyvar
}.

(** [del lines[start_line:i]], the inserts and the new cursor. *)
Definition splice (st : state) (start_line i : nat) (new_lines : list text)
    (log : pyvar) : state :=
  {| lines := firstn start_line (lines st) ++ new_lines ++ skipn i (lines st);
     cursor := start_line + length new_lines;
     success_log := log |}.

Definition line_at (ls : list text) (i : nat) : option text := nth_error ls i.

Definition line_has (ls : list text) (i : nat) (p : text) : bool :=
  match line_at ls i with
  | Some l => contains p l
  | None => false
  end.

Definition searches (r : regex) (line : text) : bool :=
  match re_search r line with Some _ => true | None => false end.

Definition trigger1 : regex :=
  Lit (T "const result = await linearClient.createAgentActivity({").
Definition trigger2 : regex := Lit (T "const activityInput = {").
Definition trigger3 : regex := Lit (T "await linearClient.createAgentActivity({").
(** [await linearClient\.createAgentActivity\([^{]+,\s*\{] *)
Definition two_parameter : regex :=
  seq [Lit (T "await linearClient.createAgentActivity("); Plus (any_but (T "{"));
       Lit (T ","); Star space; Lit (T "{")].

(** Pattern 1: inline object parameter. *)
Definition pattern1 (st : state) (line : text) : result state :=
  let start_line := cursor st in
  let indent := indent_of line in
  let ls := lines st in
  '(i, fs) <- read_call (skipn (S start_line) ls) (S start_line) no_fields ;;
  let '(i, log) :=
    if line_has ls i (T "if (result.success)")
    then branch1 ls i (skipn (S i) ls) (S i) 0%Z false PyNone
    else (i, success_log st) in
  let new_lines := call_lines indent fs ++ [[nl]] in
  new_lines <- with_log new_lines log ;;
  Ok (splice st start_line i new_lines log).

(** Pattern 2: [activityInput] variable. *)
Definition pattern2 (st : state) (line : text) : result state :=
  let start_line := cursor st in
  let indent := indent_of line in
  let ls := lines st in
  '(i, fs) <- read_input (skipn (S start_line) ls) (S start_line) no_fields ;;
  let i := if i <? length ls then S i else i in
  let i := match line_at ls i with
           | Some l => match strip l with [] => S i | _ => i end
           | None => i
           end in
  let i := if line_has ls i
                (T "const result = await linearClient.createAgentActivity(activityInput)")
           then S i else i in
  let '(i, log) :=
    if line_has ls i (T "if (result.success)")
    then branch2 (skipn (S i) ls) (S i) 0%Z PyNone
    else (i, PyNone) in
  new_lines <- with_log (call_lines indent fs) log ;;
  Ok (splice st start_line i new_lines log).

(** Pattern 3: await without [const result]. *)
Definition pattern3 (st : state) (line : text) : result state :=
  let start_line := cursor st in
  let indent := indent_of line in
  let ls := lines st in
  if searches two_parameter line
  then Ok {| lines := ls; cursor := S start_line; success_log := success_log st |}
  else
    '(i, fs) <- read_call (skipn (S start_line) ls) (S start_line) no_fields ;;
    Ok (splice st start_line i (call_lines indent fs) (success_log st)).

(** One iteration of the main loop, entered with [cursor st < len(lines)]. *)
Definition step (st : state) : result state :=
  match line_at (lines st) (cursor st) with
  | None => Ok st
  | Some line =>
      if searches trigger1 line then pattern1 st line
      else if searches trigger2 line then pattern2 st line
      else if searches trigger3 line && negb (contains (T "const result") line)
      then pattern3 st line
      else Ok {| lines := lines st; cursor := S (cursor st);
                 success_log := success_log st |}
  end.

Inductive outcome : Type :=
| Written (ls : list text)
| Crashed (e : exn)
| OutOfFuel.

Fixpoint main_loop (fuel : nat) (st : state) : outcome :=
  if cursor st <? length (lines st) then
    match fuel with
    | 0 => OutOfFuel
    | S fuel' =>
        match step st with
        | Ok st' => main_loop fuel' st'
        | Raise e => Crashed e
        end
    end
  else Written (lines st).

(** The script on the lines read from the file; every iteration moves the
    cursor closer to the end, so [len(lines)] iterations are enough. *)
Definition fix_all_create_activity (ls : list text) : outcome :=
  main_loop (length ls) {| lines := ls; cursor := 0; success_log := Unbound |}.

(** The third line of the reconstructed call when no body was collected. *)
Definition placeholder_line (line : text) : text :=
  tabs (indent_of line / 4) ++ [tab] ++ T "body: body," ++ [nl].

(** The step put the call in place of the idiom: its third line stands two
    lines below the old cursor and the cursor moved past the call. *)
Definition emitted (st st' : state) (line : text) : Prop :=
  line_at (lines st') (cursor st + 2) = Some (placeholder_line line)
  /\ cursor st + 4 <= cursor st'.

Definition lacks (p : text) (l : text) : bool := negb (contains p l).

(** The line starts one of the three idioms. *)
Definition triggers (line : text) : bool :=
  searches trigger1 line || searches trigger2 line
  || (searches trigger3 line && negb (contains (T "const result") line)).

Definition untouched (fs : fields) : Prop :=
  body_lines fs = [] /\ body_started fs = false.

End LineScanner.

(** ** The call/branch idiom as the regex rewriter recognizes it *)

Module Idiom.

(** The parts of one occurrence: the indentation, the three fields, the
    arguments of the success log, the failure block around its mention of
    [result], and the white space between the tokens. *)
Record shape : Type := {
  indent : text;
  session : text;
  ty : text;
  expr : text;
  args : text;
  fail_pre : text;
  fail_post : text;
  sp_open : text;
  sp_session : text;
  sp_content : text;
  sp_type : text;
  sp_body : text;
  sp_close : text;
  sp_call : text;
  sp_if : text;
  sp_then : text;
  sp_log : text
}.

Definition nonempty (s : text) : bool :=
  match s with [] => false | _ => true end.




Definition fields_text (d : shape) : text :=
  sp_open d ++ T "agentSessionId: " ++ session d ++ T "," ++ sp_session d
  ++ T "content: {" ++ sp_content d
  ++ T "type: " ++ [dq] ++ ty d ++ [dq] ++ T "," ++ sp_type d
  ++ T "body: " ++ expr d ++ T "," ++ sp_body d ++ T "}," ++ sp_close d.

(** The success log with the white space that follows it. *)
Definition log_text (d : shape) : text :=
  T "console.log(" ++ args d ++ T ");" ++ sp_log d.

Definition branch_text (d : shape) : text :=
  sp_if d ++ T "if (result.success) {" ++ sp_then d ++ log_text d
  ++ T "} else {" ++ fail_pre d ++ T "result" ++ fail_post d ++ T "}".

(** The old call with an inline object literal. *)
Definition old_inline (d : shape) : text :=
  indent d ++ T "const result = await linearClient.createAgentActivity({"
  ++ fields_text d ++ T "});" ++ branch_text d.


(** The two-argument call, one field per line. *)
Definition new_call (d : shape) : text :=
  indent d ++ T "await linearClient.createAgentActivity(" ++ session d ++ T ", {" ++ [nl]
  ++ indent d ++ [tab] ++ T "type: AgentActivityContentType." ++ capitalize (ty d)
  ++ T "," ++ [nl]
  ++ indent d ++ [tab] ++ T "body: " ++ expr d ++ T "," ++ [nl]
  ++ indent d ++ T "});" ++ [nl].

Definition new_inline (d : shape) : text :=
  new_call d ++ [nl] ++ indent d ++ log_text d.

Definition new_input (d : shape) : text :=
  new_call d ++ indent d ++ log_text d.

End Idiom.

(** ** Sample inputs *)

Module Samples.

Import Idiom LiteralBlocks LineScanner.

Definition sample_shape : shape :=
  {| indent := tabs 2; session := T "sessionId"; ty := T "thought";
     expr := T "text"; args := [dq] ++ T "Posted X" ++ [dq];
     fail_pre := nl :: tabs 3 ++ T "console.error(" ++ [dq] ++ T "Failed" ++ [dq] ++ T ", ";
     fail_post := T ");" ++ nl :: tabs 2;
     sp_open := nl :: tabs 3; sp_session := nl :: tabs 3; sp_content := nl :: tabs 4;
     sp_type := nl :: tabs 4; sp_body := nl :: tabs 3; sp_close := nl :: tabs 2;
     sp_call := [nl; nl] ++ tabs 2;
     sp_if := nl :: tabs 2; sp_then := nl :: tabs 3; sp_log := nl :: tabs 2 |}.

Definition sample_pre : text := T "async run() {" ++ [nl].
Definition sample_post : text := nl :: T "}" ++ [nl].

Definition sample_unmatched : text :=
  T "const comments = await linearClient.fetchComments({ filter: { issue: { id: { eq: issue.id } } } });".



(** A source line indented by [n] spaces. *)
Definition src (n : nat) (body : text) : text := repeat " "%char n ++ body ++ [nl].

Definition fields_without_body : list text :=
  [src 8 (T "agentSessionId: sessionId,");
   src 8 (T "content: {");
   src 12 (T "type: " ++ [dq] ++ T "thought" ++ [dq] ++ T ",");
   src 8 (T "},")].

Definition inline_without_body : list text :=
  [src 4 (T "const result = await linearClient.createAgentActivity({")]
  ++ fields_without_body
  ++ [src 4 (T "});");
      src 4 (T "if (result.success) {");
      src 8 (T "console.log(1);");
      src 4 (T "} else {");
      src 8 (T "console.error(2, result);");
      src 4 (T "}")].

Definition input_without_body : list text :=
  [src 4 (T "const activityInput = {")]
  ++ fields_without_body
  ++ [src 4 (T "};");
      src 4 (T "const result = await linearClient.createAgentActivity(activityInput);");
      src 4 (T "if (result.success) {");
      src 8 (T "console.log(1);");
      src 4 (T "}")].

Definition await_without_body : list text :=
  [src 4 (T "await linearClient.createAgentActivity({")]
  ++ fields_without_body
  ++ [src 4 (T "});"); src 4 (T "done();")].

(** The inline call without [body:] line and without the branch. *)
Definition inline_bare : list text :=
  [src 4 (T "const result = await linearClient.createAgentActivity({")]
  ++ fields_without_body
  ++ [src 4 (T "});"); src 4 (T "return result;")].

Definition start_of (ls : list text) : state :=
  {| lines := ls; cursor := 0; success_log := Unbound |}.

Definition fields_read : fields :=
  {| session_id := Some (T "sessionId"); type_val := Some (T "Thought");
     body_lines := []; body_started := false |}.

Definition inline_without_branch : list text :=
  [src 4 (T "const result = await linearClient.createAgentActivity({");
   src 8 (T "agentSessionId: sessionId,");
   src 8 (T "content: {");
   src 12 (T "type: " ++ [dq] ++ T "thought" ++ [dq] ++ T ",");
   src 12 (T "body: text,");
   src 8 (T "},");
   src 4 (T "});");
   src 4 (T "return result;")].

Definition inline_with_object_body : list text :=
  [src 4 (T "const result = await linearClient.createAgentActivity({");
   src 8 (T "agentSessionId: sessionId,");
   src 8 (T "content: {");
   src 12 (T "type: " ++ [dq] ++ T "thought" ++ [dq] ++ T ",");
   src 12 (T "body: JSON.stringify({");
   src 16 (T "a: 1,");
   src 12 (T "}),");
   src 8 (T "},");
   src 4 (T "});");
   src 4 (T "if (result.success) {");
   src 8 (T "console.log(1);");
   src 4 (T "} else {");
   src 8 (T "console.error(2, result);");
   src 4 (T "}")].

(** The old call of pattern 2 of the regex rewriter with a body that holds
    braces of its own. *)
Definition await_with_nested_braces : text :=
  tabs 1 ++ T "await linearClient.createAgentActivity({" ++ [nl]
  ++ tabs 2 ++ T "agentSessionId: sessionId," ++ [nl]
  ++ tabs 2 ++ T "content: {" ++ [nl]
  ++ tabs 3 ++ T "type: " ++ [dq] ++ T "thought" ++ [dq] ++ T "," ++ [nl]
  ++ tabs 3 ++ T "body: run(() => { emit({ x: { a: 1 }," ++ [nl]
  ++ tabs 3 ++ T "}); })," ++ [nl]
  ++ tabs 2 ++ T "}," ++ [nl]
  ++ tabs 1 ++ T "});" ++ [nl].

(** The three old calls as the comments of the script give them. *)
Definition old_fetchComments : text :=
  T "await linearClient.fetchComments({ filter: { issue: { id: { eq: issue.id } } } })".
Definition old_fetchComment : text :=
  T "await linearClient.fetchComment({ id: newComment.id })".
Definition old_fetchWorkflowStates : text :=
  T "await linearClient.fetchWorkflowStates({ filter: { team: { id: { eq: team.id } } } })".

Definition grandparent : text := T "const top = issue.parent.parent;".

End Samples.

(** ** Further shapes *)

Module Shapes.

Import Idiom.



(** The runs of white space [ws 0 .. ws (n-1)], each possibly empty. *)
Definition blanks (ws : nat -> text) (n : nat) : bool :=
  forallb (fun k => forallb is_space (ws k)) (List.seq 0 n).

(** An argument as the call rewrites capture it: it starts with a character
    that is not white space and holds no closing brace. *)
Definition plain_arg (arg : text) : bool :=
  nonempty arg && no_leading_space arg && forallb (any_but (T "}")) arg.

(** The filter-wrapped call of fixes 1 and 3: [head] is the call up to its
    opening brace, [field] the filtered field with its colon, [trail] the
    white space between the argument and the first closing brace. *)
Definition filter_call (head field : text) (ws : nat -> text) (arg trail : text) : text :=
  head ++ ws 0 ++ T "filter:" ++ ws 1 ++ T "{" ++ ws 2 ++ field ++ ws 3
  ++ T "{" ++ ws 4 ++ T "id:" ++ ws 5 ++ T "{" ++ ws 6 ++ T "eq:" ++ ws 7
  ++ arg ++ trail
  ++ T "}" ++ ws 8 ++ T "}" ++ ws 9 ++ T "}" ++ ws 10 ++ T "}" ++ T ")".

(** The pieces of [filter_pattern], one by one. *)
Definition filter_pieces (head field : text) : list regex :=
  [Lit head; Star space; Lit (T "filter:"); Star space;
   Lit (T "{"); Star space; Lit field; Star space;
   Lit (T "{"); Star space; Lit (T "id:"); Star space;
   Lit (T "{"); Star space; Lit (T "eq:"); Star space;
   Grp 1 (Plus (any_but (T "}")));
   Star space; Lit (T "}"); Star space; Lit (T "}");
   Star space; Lit (T "}"); Star space; Lit (T "}"); Lit (T ")")].

(** The old calls of fixes 1 and 3. *)
Definition old_comments_call (ws : nat -> text) (arg trail : text) : text :=
  filter_call (T "await linearClient.fetchComments({") (T "issue:") ws arg trail.

Definition old_states_call (ws : nat -> text) (arg trail : text) : text :=
  filter_call (T "await linearClient.fetchWorkflowStates({") (T "team:") ws arg trail.

(** The single-field call of fix 2. *)
Definition id_call (ws : nat -> text) (arg trail : text) : text :=
  T "await linearClient.fetchComment({" ++ ws 0 ++ T "id:" ++ ws 1
  ++ arg ++ trail ++ T "})".

(** No character of the text is a tab. *)
Definition tab_free (t : text) : bool := forallb (fun c => negb (only tab c)) t.

(** A line the line scanner writes by itself: one of the four lines of a
    reconstructed call, or the empty line pattern 1 puts after it. *)
Definition generated (l : text) : Prop :=
  l = [nl] \/ exists n fs, In l (LineScanner.call_lines n fs).

(** The lines and the remembered log line are lines of the file or lines
    the scanner wrote. *)
Definition from_file (ls : list text) (st : LineScanner.state) : Prop :=
  (forall l, In l (LineScanner.lines st) -> In l ls \/ generated l)
  /\ (forall s, LineScanner.success_log st = LineScanner.PyStr s -> In s ls \/ generated s).

(** The object parameter written one field per line, as the scanner reads
    it; [ws k] is the white space at each place. *)
Definition type_line (ws : nat -> text) (ty : text) : text :=
  ws 3 ++ T "type:" ++ ws 4 ++ [dq] ++ ty ++ [dq] ++ T "," ++ [nl].

Definition body_line (ws : nat -> text) (expr : text) : text :=
  ws 5 ++ T "body:" ++ ws 6 ++ expr ++ T "," ++ [nl].

Definition object_lines (ws : nat -> text) (session ty expr : text) : list text :=
  [ws 0 ++ T "agentSessionId:" ++ ws 1 ++ session ++ T "," ++ [nl];
   ws 2 ++ T "content: {" ++ [nl];
   type_line ws ty;
   body_line ws expr;
   ws 7 ++ T "}," ++ [nl]].


(** The two-argument call the scanner writes in place of a call whose first
    line was indented by [w]. *)
Definition converted (w session ty expr : text) : list text :=
  let indent_str := tabs (length w / 4) in
  [indent_str ++ T "await linearClient.createAgentActivity(" ++ session ++ T ", {" ++ [nl];
   indent_str ++ [tab] ++ T "type: AgentActivityContentType." ++ capitalize ty ++ T ","
     ++ [nl];
   indent_str ++ [tab] ++ T "body: " ++ expr ++ T "," ++ [nl];
   indent_str ++ T "});" ++ [nl]].








(** The lines hold neither a closing brace nor [body:]. *)
Definition plain_lines (ls : list text) : bool :=
  forallb (fun l => LineScanner.lacks (T "}") l && LineScanner.lacks (T "body:") l) ls.

(** No line starts an idiom. *)
Definition quiet (ls : list text) : bool :=
  forallb (fun l => negb (LineScanner.triggers l)) ls.

(** A line that continues a body: its text [x] between the indentation and
    a trailing comma. *)
Definition continuation (p : text * text) : text := fst p ++ snd p ++ T "," ++ [nl].

(** The text of a continuation line starts with a character that is neither
    white space nor a closing brace, and its line holds none of the three
    keys. *)
Definition continues (p : text * text) : bool :=
  forallb is_space (fst p)
  && Idiom.nonempty (snd p) && no_leading_space (snd p)
  && negb (startswith (snd p) (T "}"))
  && LineScanner.lacks (T "agentSessionId:") (continuation p)
  && LineScanner.lacks (T "type:") (continuation p)
  && LineScanner.lacks (T "body:") (continuation p).

(** The fields after the texts [xs] have been added to the body. *)
Definition with_body (fs : LineScanner.fields) (xs : list text) : LineScanner.fields :=
  {| LineScanner.session_id := LineScanner.session_id fs;
     LineScanner.type_val := LineScanner.type_val fs;
     LineScanner.body_lines := LineScanner.body_lines fs ++ xs;
     LineScanner.body_started := LineScanner.body_started fs |}.

(** A [body:] line from which no value can be read. *)
Definition bad_body_line (l : text) : Prop :=
  contains (T "body:") l = true /\ LineScanner.extract_body_start l = None.

End Shapes.

(** ** The third block of [fix_last_three.py] as lines of the file *)

Module Recorded.

Import Shapes.

(** The white space of the block: its lines are indented with three to five
    tabs. *)
Definition ws3 (k : nat) : text :=
  match k with
  | 0 => tabs 4
  | 1 => T " "
  | 2 => tabs 4
  | 3 => tabs 5
  | 4 => T " "
  | 5 => tabs 5
  | 6 => T " "
  | 7 => tabs 4
  | _ => tabs 3
  end.

Definition if3 : text := tabs 3 ++ T "if (result.success) {" ++ [nl].

Definition succ3 : list text := [tabs 4 ++ T "console.log(" ++ [nl]].

Definition both3 : text :=
  tabs 5
  ++ T "`[EdgeWorker] Posted instant prompted acknowledgment thought for session ${linearAgentActivitySessionId} (streaming: ${isStreaming})`,"
  ++ [nl].

Definition after3 : list text :=
  [tabs 4 ++ T ");" ++ [nl];
   tabs 3 ++ T "} else {" ++ [nl];
   tabs 4 ++ T "console.error(" ++ [nl];
   tabs 5 ++ T "`[EdgeWorker] Failed to post instant prompted acknowledgment:`," ++ [nl];
   tabs 5 ++ T "result," ++ [nl];
   tabs 4 ++ T ");" ++ [nl];
   tabs 3 ++ T "}" ++ [nl]].

Definition lines3 : list text :=
  (tabs 3 ++ T "const activityInput = {" ++ [nl])
  :: object_lines ws3 (T "linearAgentActivitySessionId") (T "thought") (T "message")
  ++ (ws3 8 ++ T "};" ++ [nl])
  :: [[nl]]
  ++ (ws3 9 ++ T "const result = await linearClient.createAgentActivity(activityInput);"
        ++ [nl])
  :: if3 :: succ3 ++ both3 :: after3.

(** Block #2 of the same file: the same layout with a template literal as
    its body. *)
Definition expr2 : text :=
  T "`Entering '${selectedPromptType}' mode because of the '${triggerLabel}' label. I'll follow the ${selectedPromptType} process...`".

Definition both2 : text :=
  tabs 5
  ++ T "`[EdgeWorker] Posted system prompt selection thought for session ${linearAgentActivitySessionId} (${selectedPromptType} mode)`,"
  ++ [nl].

Definition after2 : list text :=
  [tabs 4 ++ T ");" ++ [nl];
   tabs 3 ++ T "} else {" ++ [nl];
   tabs 4 ++ T "console.error(" ++ [nl];
   tabs 5 ++ T "`[EdgeWorker] Failed to post system prompt selection thought:`," ++ [nl];
   tabs 5 ++ T "result," ++ [nl];
   tabs 4 ++ T ");" ++ [nl];
   tabs 3 ++ T "}" ++ [nl]].

Definition lines2 : list text :=
  (tabs 3 ++ T "const activityInput = {" ++ [nl])
  :: object_lines ws3 (T "linearAgentActivitySessionId") (T "thought") expr2
  ++ (ws3 8 ++ T "};" ++ [nl])
  :: [[nl]]
  ++ (ws3 9 ++ T "const result = await linearClient.createAgentActivity(activityInput);"
        ++ [nl])
  :: if3 :: succ3 ++ both2 :: after2.

End Recorded.

(** ** What patterns 1 and 3 of the regex rewriter match *)

Module Occurrence.

Import Idiom.
















End Occurrence.

(** * Properties *)

(** ** Facts about text *)

Section TextFacts.

Lemma strip_prefix_app (l s : text) : strip_prefix l (l ++ s) = Some s.
Proof.
  induction l as [|c l IH]; simpl; [reflexivity|].
  rewrite Ascii.eqb_refl. exact IH.
Qed.

Lemma strip_prefix_inv (l s r : text) : strip_prefix l s = Some r -> s = l ++ r.
Proof.
  revert s; induction l as [|c l IH]; intros s H; simpl in *.
  - congruence.
  - destruct s as [|d s]; [discriminate|].
    destruct (Ascii.eqb c d) eqn:E; [|discriminate].
    apply Ascii.eqb_eq in E; subst d. f_equal. apply IH, H.
Qed.

Lemma startswith_app (p s : text) : startswith (p ++ s) p = true.
Proof. unfold startswith. rewrite strip_prefix_app. reflexivity. Qed.

Lemma startswith_inv (s p : text) : startswith s p = true -> exists r, s = p ++ r.
Proof.
  unfold startswith. destruct (strip_prefix p s) as [r|] eqn:E; [|discriminate].
  intros _. exists r. apply strip_prefix_inv, E.
Qed.

Lemma dropwhile_all (f : ascii -> bool) (w s : text) :
  forallb f w = true -> dropwhile f (w ++ s) = dropwhile f s.
Proof.
  induction w as [|c w IH]; simpl; [reflexivity|].
  intros H. apply andb_prop in H as [Hc Hw]. rewrite Hc. apply IH, Hw.
Qed.

Lemma forallb_rev_true (f : ascii -> bool) (w : text) :
  forallb f w = true -> forallb f (rev w) = true.
Proof.
  intros H. apply forallb_forall. intros x Hx.
  apply in_rev in Hx. revert x Hx. apply forallb_forall, H.
Qed.

Lemma rstrip_trailing (s w : text) (c : ascii) :
  is_space c = false -> forallb is_space w = true ->
  rstrip (s ++ c :: w) = s ++ [c].
Proof.
  intros Hc Hw. unfold rstrip.
  rewrite rev_app_distr. simpl. rewrite <- app_assoc.
  rewrite dropwhile_all by (apply forallb_rev_true, Hw).
  simpl. rewrite Hc. simpl. rewrite rev_involutive. reflexivity.
Qed.

Lemma lstrip_id (s t : text) (c : ascii) :
  no_leading_space s = true -> is_space c = false -> lstrip (s ++ c :: t) = s ++ c :: t.
Proof.
  unfold lstrip. destruct s as [|d s]; simpl; intros Hs Hc.
  - rewrite Hc. reflexivity.
  - apply negb_true_iff in Hs. rewrite Hs. reflexivity.
Qed.

Lemma endswith_last (s : text) (c : ascii) : endswith (s ++ [c]) [c] = true.
Proof.
  unfold endswith. rewrite rev_app_distr. simpl.
  unfold startswith. simpl. rewrite Ascii.eqb_refl. reflexivity.
Qed.








End TextFacts.
(** ** Facts about the matcher *)

Section ReFacts.

Lemma hd_flat_map {A B : Type} (f : A -> list B) (l : list A) (a : A) (b : B) :
  hd_error l = Some a -> hd_error (f a) = Some b -> hd_error (flat_map f l) = Some b.
Proof.
  destruct l as [|a' l]; simpl; [discriminate|].
  intros [= ->] Hb. destruct (f a); simpl in *; [discriminate|exact Hb].
Qed.

Lemma hd_greedy (c : cset) (x s : text) :
  forallb c x = true -> stops c s = true -> hd_error (greedy c (x ++ s)) = Some s.
Proof.
  intros Hx Hs. induction x as [|a x IH]; simpl in *.
  - destruct s as [|b s]; simpl in *; [reflexivity|].
    apply negb_true_iff in Hs. rewrite Hs. reflexivity.
  - apply andb_prop in Hx as [Ha Hx]. rewrite Ha.
    specialize (IH Hx). destruct (greedy c (x ++ s)); simpl in *; [discriminate|exact IH].
Qed.

Lemma first_lit (l s : text) (e : env) :
  hd_error (run (Lit l) (l ++ s) e) = Some (e, s).
Proof. simpl. rewrite strip_prefix_app. reflexivity. Qed.

Lemma first_star (c : cset) (x s : text) (e : env) :
  forallb c x = true -> stops c s = true ->
  hd_error (run (Star c) (x ++ s) e) = Some (e, s).
Proof.
  intros Hx Hs. simpl. pose proof (hd_greedy c x s Hx Hs) as H.
  destruct (greedy c (x ++ s)); simpl in *; congruence.
Qed.

Lemma first_plus (c : cset) (x s : text) (e : env) :
  x <> [] -> forallb c x = true -> stops c s = true ->
  hd_error (run (Plus c) (x ++ s) e) = Some (e, s).
Proof.
  intros Hne Hx Hs. destruct x as [|a x]; [congruence|]. simpl in *.
  apply andb_prop in Hx as [Ha Hx]. rewrite Ha.
  pose proof (hd_greedy c x s Hx Hs) as H.
  destruct (greedy c (x ++ s)); simpl in *; congruence.
Qed.

Lemma first_grp (n : nat) (r : regex) (x s full : text) (e e1 : env) :
  full = x ++ s ->
  hd_error (run r (x ++ s) e) = Some (e1, s) ->
  hd_error (run (Grp n r) full e) = Some ((n, x) :: e1, s).
Proof.
  intros -> H. simpl. destruct (run r (x ++ s) e) as [|[e' s'] l]; simpl in *; [discriminate|].
  injection H as -> ->. rewrite length_app, Nat.add_sub, firstn_app, Nat.sub_diag.
  rewrite firstn_all, app_nil_r. reflexivity.
Qed.

Lemma first_seq_nil (s : text) (e : env) : hd_error (run (seq []) s e) = Some (e, s).
Proof. reflexivity. Qed.

Lemma first_seq_cons (r : regex) (rs : list regex) (s s1 : text) (e e1 : env)
    (res : env * text) :
  hd_error (run r s e) = Some (e1, s1) ->
  hd_error (run (seq rs) s1 e1) = Some res ->
  hd_error (run (seq (r :: rs)) s e) = Some res.
Proof.
  intros H1 H2. simpl. eapply hd_flat_map; [exact H1|exact H2].
Qed.




(** *** Every result, for the pieces that backtrack *)

Lemma in_greedy (c : cset) (s r : text) :
  In r (greedy c s) <-> exists x, forallb c x = true /\ s = x ++ r.
Proof.
  revert r. induction s as [|a s IH]; intros r; simpl.
  - split.
    + intros [<-|[]]. exists []. split; reflexivity.
    + intros [x [_ H]]. symmetry in H. apply app_eq_nil in H as [_ ->]. left; reflexivity.
  - destruct (c a) eqn:Ca.
    + rewrite in_app_iff, IH. simpl. split.
      * intros [[x [Hx ->]]|[<-|[]]].
        -- exists (a :: x). simpl. rewrite Ca, Hx. split; reflexivity.
        -- exists []. split; reflexivity.
      * intros [[|b x] [Hx H]]; simpl in *.
        -- right; left. exact H.
        -- injection H as <- ->. apply andb_prop in Hx as [_ Hx].
           left. exists x. split; [exact Hx|reflexivity].
    + simpl. split.
      * intros [<-|[]]. exists []. split; reflexivity.
      * intros [[|b x] [Hx H]]; simpl in *.
        -- left. exact H.
        -- injection H as <- ->. rewrite Ca in Hx. discriminate.
Qed.

Lemma in_run_plus (c : cset) (s r : text) (e e' : env) :
  In (e', r) (run (Plus c) s e) <->
  e' = e /\ exists x, x <> [] /\ forallb c x = true /\ s = x ++ r.
Proof.
  simpl. destruct s as [|a s].
  - split; [intros []|]. intros [_ [x [Hne [_ H]]]].
    symmetry in H. apply app_eq_nil in H as [-> _]. congruence.
  - destruct (c a) eqn:Ca.
    + rewrite in_map_iff. split.
      * intros [r' [[= <- <-] Hin]]. apply in_greedy in Hin as [x [Hx ->]].
        split; [reflexivity|]. exists (a :: x). simpl. rewrite Ca, Hx.
        repeat split; congruence.
      * intros [-> [[|b x] [Hne [Hx H]]]]; [congruence|]. simpl in *.
        injection H as <- ->. apply andb_prop in Hx as [_ Hx].
        exists r. split; [reflexivity|]. apply in_greedy. exists x. split; [exact Hx|reflexivity].
    + split; [intros []|]. intros [_ [[|b x] [Hne [Hx H]]]]; [congruence|].
      simpl in *. injection H as <- ->. rewrite Ca in Hx. discriminate.
Qed.

Lemma in_run_lit (l s r : text) (e e' : env) :
  In (e', r) (run (Lit l) s e) <-> e' = e /\ s = l ++ r.
Proof.
  simpl. destruct (strip_prefix l s) as [s'|] eqn:E.
  - apply strip_prefix_inv in E. subst s. simpl. split.
    + intros [[= <- <-]|[]]. split; reflexivity.
    + intros [-> H]. apply app_inv_head in H. subst. left; reflexivity.
  - split; [intros []|]. intros [_ ->]. rewrite strip_prefix_app in E. discriminate.
Qed.

Lemma in_run_seq (r : regex) (rs : list regex) (s : text) (e : env) (res : env * text) :
  In res (run (seq (r :: rs)) s e) <->
  exists e1 s1, In (e1, s1) (run r s e) /\ In res (run (seq rs) s1 e1).
Proof.
  simpl. rewrite in_flat_map. split.
  - intros [[e1 s1] [H1 H2]]. exists e1, s1. split; assumption.
  - intros [e1 [s1 [H1 H2]]]. exists (e1, s1). split; assumption.
Qed.

(** Every result of [run] leaves a suffix of the input. *)
Lemma run_suffix (r : regex) (s : text) (e e' : env) (s' : text) :
  In (e', s') (run r s e) -> exists x, s = x ++ s'.
Proof.
  revert s e e' s'. induction r as [l|c|c|c|r IH|n r IH| |r1 IH1 r2 IH2]; intros s e e' s' H.
  - apply in_run_lit in H as [_ ->]. eexists; reflexivity.
  - simpl in H. destruct s as [|a s]; [destruct H|]. destruct (c a); [|destruct H].
    destruct H as [[= <- <-]|[]]. exists [a]. reflexivity.
  - simpl in H. apply in_map_iff in H as [r' [[= <- <-] Hin]].
    apply in_greedy in Hin as [x [_ ->]]. eexists; reflexivity.
  - apply in_run_plus in H as [_ [x [_ [_ ->]]]]. eexists; reflexivity.
  - simpl in H. apply in_app_iff in H as [H|[[= <- <-]|[]]].
    + eapply IH, H.
    + exists []. reflexivity.
  - simpl in H. apply in_map_iff in H as [[e1 s1] [[= <- <-] Hin]]. eapply IH, Hin.
  - simpl in H. destruct s as [|c [|d s]].
    + destruct H as [[= <- <-]|[]]. exists []. reflexivity.
    + destruct (Ascii.eqb c nl); [|destruct H].
      destruct H as [[= <- <-]|[]]. exists []. reflexivity.
    + destruct H.
  - simpl in H. apply in_flat_map in H as [[e1 s1] [H1 H2]].
    apply IH1 in H1 as [x ->]. apply IH2 in H2 as [y ->].
    exists (x ++ y). rewrite app_assoc. reflexivity.
Qed.


(** *** Substitution *)

Lemma sub_from_skip (r : regex) (f : env -> text) (x s : text) :
  sub_from r f (x ++ s) (length x) = sub_from r f s 0.
Proof.
  induction x as [|c x IH]; simpl; [reflexivity|exact IH].
Qed.

Lemma sub_from_match (r : regex) (f : env -> text) (x s : text) (e : env) :
  x <> [] -> re_match r (x ++ s) = Some (e, s) ->
  re_sub r f (x ++ s) = f e ++ re_sub r f s.
Proof.
  unfold re_sub. intros Hne H. destruct x as [|c x]; [congruence|].
  assert (L : length ((c :: x) ++ s) - length s = S (length x))
    by (rewrite length_app, Nat.add_sub; reflexivity).
  change (sub_from r f ((c :: x) ++ s) 0) with
    (match re_match r ((c :: x) ++ s) with
     | Some (e, rest) =>
         f e ++ match length ((c :: x) ++ s) - length rest with
                | 0 => c :: sub_from r f (x ++ s) 0
                | S k => sub_from r f (x ++ s) k
                end
     | None => c :: sub_from r f (x ++ s) 0
     end).
  rewrite H, L, sub_from_skip. reflexivity.
Qed.

Lemma sub_from_prefix (r : regex) (f : env -> text) (pre s : text) :
  matches_none r pre s = true -> re_sub r f (pre ++ s) = pre ++ re_sub r f s.
Proof.
  unfold re_sub. induction pre as [|c pre IH]; simpl; [reflexivity|].
  destruct (re_match r (c :: pre ++ s)); [discriminate|].
  intros H. rewrite IH by exact H. reflexivity.
Qed.

Lemma sub_from_unmatched (r : regex) (f : env -> text) (s : text) :
  has_match r s = false -> re_sub r f s = s.
Proof.
  unfold re_sub. induction s as [|c s IH]; simpl.
  - destruct (re_match r []); [discriminate|reflexivity].
  - destruct (re_match r (c :: s)); [discriminate|].
    intros H. rewrite IH by exact H. reflexivity.
Qed.

Lemma count_unmatched (r : regex) (s : text) :
  has_match r s = false -> re_count r s = 0.
Proof.
  unfold re_count. induction s as [|c s IH]; simpl.
  - destruct (re_match r []); [discriminate|reflexivity].
  - destruct (re_match r (c :: s)); [discriminate|]. exact IH.
Qed.

(** *** Patterns that need a literal *)

Lemma contains_intro (m x y : text) : contains m (x ++ m ++ y) = true.
Proof.
  induction x as [|c x IH]; simpl.
  - pose proof (startswith_app m y) as H. destruct (m ++ y); simpl; rewrite H; reflexivity.
  - rewrite IH. apply orb_true_r.
Qed.

Lemma contains_tail (m : text) (c : ascii) (s : text) :
  contains m (c :: s) = false -> contains m s = false.
Proof. simpl. intros H. apply orb_false_elim in H. apply H. Qed.

(** A pattern whose second piece is the literal [m] matches only where [m]
    occurs. *)
Lemma match_needs_second_literal (r0 : regex) (m : text) (rs : list regex) (s : text) :
  contains m s = false -> re_match (seq (r0 :: Lit m :: rs)) s = None.
Proof.
  intros H. unfold re_match.
  destruct (run (seq (r0 :: Lit m :: rs)) s []) as [|[e' s'] l] eqn:E; [reflexivity|].
  assert (Hin : In (e', s') (run (seq (r0 :: Lit m :: rs)) s [])) by (rewrite E; left; reflexivity).
  apply in_run_seq in Hin as [e1 [s1 [H1 Hin]]].
  apply in_run_seq in Hin as [e2 [s2 [H2 _]]].
  apply run_suffix in H1 as [x ->]. apply in_run_lit in H2 as [_ ->].
  rewrite contains_intro in H. discriminate.
Qed.

(** The same for a pattern that starts with the literal. *)
Lemma match_needs_first_literal (m : text) (rs : list regex) (s : text) :
  contains m s = false -> re_match (seq (Lit m :: rs)) s = None.
Proof.
  intros H. unfold re_match.
  destruct (run (seq (Lit m :: rs)) s []) as [|[e' s'] l] eqn:E; [reflexivity|].
  assert (Hin : In (e', s') (run (seq (Lit m :: rs)) s [])) by (rewrite E; left; reflexivity).
  apply in_run_seq in Hin as [e1 [s1 [H1 _]]].
  apply in_run_lit in H1 as [_ ->].
  pose proof (contains_intro m [] s1) as C. simpl app in C. congruence.
Qed.

Lemma unmatched_everywhere (r : regex) (m : text) (s : text) :
  (forall t, contains m t = false -> re_match r t = None) ->
  contains m s = false -> has_match r s = false.
Proof.
  intros Hr. induction s as [|c s IH]; intros H; simpl.
  - rewrite Hr by exact H. reflexivity.
  - rewrite Hr by exact H. apply IH. eapply contains_tail, H.
Qed.

End ReFacts.
Section RegexRewriterFacts.

Import Idiom RegexRewriter Samples.



Lemma space_is_not (cs w : text) :
  forallb (fun c => negb (is_space c)) cs = true ->
  forallb is_space w = true -> forallb (any_but cs) w = true.
Proof.
  intros Hcs Hw. apply forallb_forall. intros x Hx.
  assert (Sx : is_space x = true) by (apply (proj1 (forallb_forall _ _) Hw), Hx).
  unfold any_but. apply negb_true_iff.
  destruct (existsb (Ascii.eqb x) cs) eqn:E; [|reflexivity].
  apply existsb_exists in E as [y [Hy Exy]]. apply Ascii.eqb_eq in Exy. subst y.
  apply (proj1 (forallb_forall _ _) Hcs) in Hy. rewrite Sx in Hy. discriminate.
Qed.









(** The body captured with its comma and the white space before the closing
    brace comes out as the bare expression. *)
Lemma fix_body_expr (x w : text) :
  no_leading_space x = true -> forallb is_space w = true ->
  fix_body (x ++ T "," ++ w) = x.
Proof.
  intros Hx Hw. unfold fix_body, strip.
  change (x ++ T "," ++ w) with (x ++ ","%char :: w).
  rewrite lstrip_id by (assumption || reflexivity).
  rewrite rstrip_trailing by (assumption || reflexivity).
  change (T ",") with [","%char].
  rewrite endswith_last. unfold drop_last. apply removelast_last.
Qed.



(** *** Outside the shape the patterns recognize *)


(** A text without the openers of the old forms passes through the three
    passes unchanged. *)
Lemma converted_text_untouched (t : text) :
  (contains (T "const result = await linearClient.createAgentActivity({") t = false ->
   pass1 t = t)
  /\ (contains (T "await linearClient.createAgentActivity({") t = false -> pass2 t = t)
  /\ (contains (T "const activityInput = {") t = false -> pass3 t = t).
Proof.
  repeat split; intros H; apply sub_from_unmatched;
    (eapply unmatched_everywhere; [|exact H]);
    intros u Hu; apply match_needs_second_literal; exact Hu.
Qed.

(** The whole script on the sample: one fix, and the later passes leave the
    new call alone. *)
Example script_on_sample :
  fix_create_activity (sample_pre ++ old_inline sample_shape ++ sample_post)
  = (sample_pre ++ new_inline sample_shape ++ sample_post, 1).
Proof. vm_compute. reflexivity. Qed.

End RegexRewriterFacts.

(** ** A pattern that finds nothing *)

Section Unmatched.

Import RegexRewriter Signatures Samples.

(** C9.  A substitution whose pattern matches nowhere returns its input
    unchanged, whatever the pattern and the replacement; hence in both regex
    scripts a pass that finds nothing drops out of the run and the output is
    what the other passes produce. *)
Theorem unmatched_pattern_is_noop :
  (forall (r : regex) (f : env -> text) (s : text),
      has_match r s = false -> re_sub r f s = s /\ re_count r s = 0)
  /\ (forall c, has_match pattern1 c = false ->
                fst (fix_create_activity c) = pass3 (pass2 c))
  /\ (forall c, has_match pattern2 (pass1 c) = false ->
                fst (fix_create_activity c) = pass3 (pass1 c))
  /\ (forall c, has_match pattern3 (pass2 (pass1 c)) = false ->
                fst (fix_create_activity c) = pass2 (pass1 c))
  /\ (forall c, has_match pat_fetchComments c = false ->
                fix_method_signatures c = fix4 (fix3 (fix2 c)))
  /\ (forall c, has_match pat_fetchComment (fix1 c) = false ->
                fix_method_signatures c = fix4 (fix3 (fix1 c)))
  /\ (forall c, has_match pat_fetchWorkflowStates (fix2 (fix1 c)) = false ->
                fix_method_signatures c = fix4 (fix2 (fix1 c)))
  /\ (forall c, has_match pat_parent (fix3 (fix2 (fix1 c))) = false ->
                fix_method_signatures c = fix3 (fix2 (fix1 c))).
Proof.
  repeat split.
  - apply sub_from_unmatched; assumption.
  - apply count_unmatched; assumption.
  - intros c H. simpl. unfold pass1 at 1. rewrite sub_from_unmatched by exact H. reflexivity.
  - intros c H. simpl. unfold pass2. rewrite sub_from_unmatched by exact H. reflexivity.
  - intros c H. simpl. unfold pass3. rewrite sub_from_unmatched by exact H. reflexivity.
  - intros c H. unfold fix_method_signatures, fix1.
    rewrite sub_from_unmatched by exact H. reflexivity.
  - intros c H. unfold fix_method_signatures. unfold fix2 at 1.
    rewrite sub_from_unmatched by exact H. reflexivity.
  - intros c H. unfold fix_method_signatures. unfold fix3 at 1.
    rewrite sub_from_unmatched by exact H. reflexivity.
  - intros c H. unfold fix_method_signatures. unfold fix4 at 1.
    rewrite sub_from_unmatched by exact H. reflexivity.
Qed.

Lemma unmatched_pattern_witness :
  re_sub pat_fetchComment (expand repl_fetchComment) (fix1 sample_unmatched)
  = fix1 sample_unmatched
  /\ fix_method_signatures sample_unmatched = fix4 (fix3 (fix1 sample_unmatched))
  /\ fst (fix_create_activity sample_unmatched) = pass3 (pass1 sample_unmatched).
Proof.
  destruct unmatched_pattern_is_noop as [H [_ [H2 [_ [_ [H6 _]]]]]].
  split; [|split].
  - apply H. vm_compute. reflexivity.
  - apply H6. vm_compute. reflexivity.
  - apply H2. vm_compute. reflexivity.
Defined.

End Unmatched.

(** ** The literal-block rewriter *)

Section LiteralBlockFacts.

Import LiteralBlocks Samples.

Lemma contains_spec (p s : text) :
  contains p s = true <-> exists a b, s = a ++ p ++ b.
Proof.
  split.
  - induction s as [|c s IH]; simpl; intros H; apply orb_prop in H as [H|H].
    + apply startswith_inv in H as [r ->]. exists [], r. reflexivity.
    + discriminate.
    + apply startswith_inv in H as [r ->]. exists [], r. reflexivity.
    + destruct (IH H) as [a [b ->]]. exists (c :: a), b. reflexivity.
  - intros [a [b ->]]. induction a as [|c a IH]; simpl.
    + pose proof (startswith_app p b) as H.
      destruct (p ++ b); simpl; rewrite H; reflexivity.
    + rewrite IH. apply orb_true_r.
Qed.






End LiteralBlockFacts.

(** ** The content type and its constant *)

Section TypeConstant.

Import LineScanner.


Lemma re_search_skip (r : regex) (w s : text) :
  (forall a s', In a w -> re_match r (a :: s') = None) ->
  re_search r (w ++ s) = re_search r s.
Proof.
  induction w as [|a w IH]; intros H; simpl; [reflexivity|].
  rewrite (H a (w ++ s)) by (left; reflexivity).
  apply IH. intros b s' Hb. apply H. right. exact Hb.
Qed.

Lemma lit_fails_on (l : text) (rs : list regex) (c a : ascii) (s : text) :
  Ascii.eqb c a = false -> re_match (seq (Lit (c :: l) :: rs)) (a :: s) = None.
Proof. intros H. unfold re_match. simpl. rewrite H. reflexivity. Qed.

Lemma space_differs (c a : ascii) :
  is_space c = false -> is_space a = true -> Ascii.eqb c a = false.
Proof.
  intros Hc Ha. destruct (Ascii.eqb c a) eqn:E; [|reflexivity].
  apply Ascii.eqb_eq in E. congruence.
Qed.



End TypeConstant.

(** ** The line scanner *)

Section LineScannerFacts.

Import LineScanner Samples.

Lemma spliced_line (st : state) (i k : nat) (new_lines : list text) (log : pyvar)
    (l : text) :
  cursor st <= length (lines st) ->
  nth_error new_lines k = Some l ->
  line_at (lines (splice st (cursor st) i new_lines log)) (cursor st + k) = Some l.
Proof.
  intros Hc Hk. unfold line_at, splice. cbn [lines].
  rewrite nth_error_app2 by (rewrite length_firstn; lia).
  rewrite length_firstn. replace (cursor st + k - Nat.min (cursor st) (length (lines st)))
    with k by lia.
  rewrite nth_error_app1; [exact Hk|].
  apply nth_error_Some. congruence.
Qed.

Lemma with_log_bound (new_lines : list text) (log : pyvar) :
  log <> Unbound ->
  exists new_lines', with_log new_lines log = Ok new_lines'
    /\ (forall k l, nth_error new_lines k = Some l -> nth_error new_lines' k = Some l)
    /\ length new_lines <= length new_lines'.
Proof.
  intros H. destruct log as [| |[|c s]]; [congruence| | |]; simpl.
  - exists new_lines. repeat split; auto.
  - exists new_lines. repeat split; auto.
  - exists (new_lines ++ [c :: s]). split; [reflexivity|]. split.
    + intros k l Hk. rewrite nth_error_app1; [exact Hk|].
      apply nth_error_Some. congruence.
    + rewrite length_app. lia.
Qed.

Lemma branch1_bound_log (ls : list text) (if_start : nat) (n : nat) :
  forall rest i bc ef log,
    length rest <= n -> log <> Unbound ->
    snd (branch1 ls if_start rest i bc ef log) <> Unbound.
Proof.
  induction n as [|n IH]; intros rest i bc ef log Hn Hlog.
  - destruct rest; [exact Hlog|simpl in Hn; lia].
  - destruct rest as [|l rest]; [exact Hlog|]. simpl in Hn. cbn [branch1].
    destruct (contains (T "}") l).
    + destruct ((count_open l bc - 1 =? 0)%Z && negb ef).
      * assert (Hlog' : match find (contains (T "console.log")) (slice ls (if_start + 1) i)
                        with Some lj => PyStr lj | None => log end <> Unbound)
          by (destruct (find _ _); [discriminate|exact Hlog]).
        destruct rest as [|l' rest]; [exact Hlog'|].
        destruct (contains (T "else") l'); [|exact Hlog'].
        apply IH; [simpl in Hn; lia|exact Hlog'].
      * destruct ((count_open l bc - 1 =? 0)%Z && ef); [exact Hlog|].
        apply IH; [lia|exact Hlog].
    + apply IH; [lia|exact Hlog].
Qed.

Lemma branch2_bound_log (rest : list text) :
  forall i bc log, log <> Unbound -> snd (branch2 rest i bc log) <> Unbound.
Proof.
  induction rest as [|l rest IH]; intros i bc log Hlog; [exact Hlog|]. cbn [branch2].
  assert (Hlog' : (if contains (T "console.log") l then PyStr l else log) <> Unbound)
    by (destruct (contains _ l); [discriminate|exact Hlog]).
  destruct (contains (T "}") l); [|apply IH, Hlog'].
  destruct (count_open l bc - 1 =? 0)%Z; [|apply IH, Hlog'].
  destruct rest as [|l' rest]; [exact Hlog'|].
  destruct (contains (T "else") l'); exact Hlog'.
Qed.

(** Lines without a [body:] field leave the collected body empty: the loop
    of patterns 1 and 3 ends at the first line with the closing [});]. *)
Lemma read_call_without_body (r0 : list text) (last : text) (post : list text) :
  forallb (lacks (T "body:")) (r0 ++ [last]) = true ->
  contains (T "});") last = true ->
  contains (T "agentSessionId:") last = false ->
  contains (T "type:") last = false ->
  forall i0 fs0, untouched fs0 ->
    exists i fs, read_call (r0 ++ last :: post) i0 fs0 = Ok (i, fs) /\ body_lines fs = [].
Proof.
  intros Hb Hc Hs Ht. induction r0 as [|l r0 IH]; intros i0 fs0 [U1 U2].
  - cbn [app forallb] in Hb. apply andb_prop in Hb as [Hb _]. apply negb_true_iff in Hb.
    cbn [app read_call]. rewrite Hs, Ht, Hb, U2, Hc.
    do 2 eexists. split; [reflexivity|exact U1].
  - cbn [app forallb] in Hb. apply andb_prop in Hb as [Hl Hb]. apply negb_true_iff in Hl.
    specialize (IH Hb). cbn [app read_call].
    destruct (contains (T "agentSessionId:") l); [apply IH; split; assumption|].
    destruct (contains (T "type:") l); [apply IH; split; assumption|].
    rewrite Hl, U2. cbn [andb].
    destruct (contains (T "});") l).
    + do 2 eexists. split; [reflexivity|exact U1].
    + apply IH; split; assumption.
Qed.

(** The same for the loop of pattern 2, which ends at the closing line. *)
Lemma read_input_without_body (r0 : list text) (last : text) (post : list text) :
  forallb (lacks (T "body:")) r0 = true ->
  closing_line last = true ->
  forall i0 fs0, untouched fs0 ->
    exists i fs, read_input (r0 ++ last :: post) i0 fs0 = Ok (i, fs) /\ body_lines fs = [].
Proof.
  intros Hb Hc. induction r0 as [|l r0 IH]; intros i0 fs0 [U1 U2].
  - cbn [app read_input]. rewrite Hc. do 2 eexists. split; [reflexivity|exact U1].
  - cbn [forallb] in Hb. apply andb_prop in Hb as [Hl Hb]. apply negb_true_iff in Hl.
    specialize (IH Hb). cbn [app read_input].
    destruct (closing_line l); [do 2 eexists; split; [reflexivity|exact U1]|].
    destruct (contains (T "agentSessionId:") l); [apply IH; split; assumption|].
    destruct (contains (T "type:") l); [apply IH; split; assumption|].
    rewrite Hl, U2. apply IH; split; assumption.
Qed.

Lemma third_call_line (line : text) (fs : fields) :
  body_lines fs = [] ->
  nth_error (call_lines (indent_of line) fs) 2 = Some (placeholder_line line).
Proof. intros H. unfold call_lines, placeholder_line, body_str. rewrite H. reflexivity. Qed.

Lemma line_at_bound (ls : list text) (i : nat) (l : text) :
  line_at ls i = Some l -> i <= length ls.
Proof.
  intros H. assert (i < length ls) by (apply nth_error_Some; unfold line_at in H; congruence).
  lia.
Qed.

Lemma call_lines_length (n : nat) (fs : fields) : length (call_lines n fs) = 4.
Proof. reflexivity. Qed.

Lemma emitted_by_splice (st : state) (line : text) (i : nat) (base : list text)
    (log : pyvar) :
  line_at (lines st) (cursor st) = Some line ->
  nth_error base 2 = Some (placeholder_line line) ->
  4 <= length base ->
  log <> Unbound ->
  exists st',
    (new_lines <- with_log base log ;; Ok (splice st (cursor st) i new_lines log)) = Ok st'
    /\ emitted st st' line.
Proof.
  intros Hl Hb Hlen Hlog.
  destruct (with_log_bound base Hlog) as [new' [E [Hnth Hlen']]].
  rewrite E. cbn [bind]. eexists. split; [reflexivity|]. split.
  - apply spliced_line; [eapply line_at_bound, Hl|]. apply Hnth, Hb.
  - cbn [splice cursor]. lia.
Qed.

(** What holds of C10.  When the loop that reads the fields of a matched
    idiom ends with no body collected, the step succeeds and puts the
    reconstructed call in place of the idiom with the word [body] as its body
    expression, for each of the three patterns; for pattern 1 provided the
    success branch follows or [success_log] already has a value.  The loops
    do end that way when none of the lines they read holds a [body:] field. *)
Theorem missing_body_gets_placeholder (st : state) (line : text) (i : nat) (fs : fields) :
  line_at (lines st) (cursor st) = Some line ->
  body_lines fs = [] ->
  (searches trigger1 line = true ->
   read_call (skipn (S (cursor st)) (lines st)) (S (cursor st)) no_fields = Ok (i, fs) ->
   line_has (lines st) i (T "if (result.success)") = true \/ success_log st <> Unbound ->
   exists st', step st = Ok st' /\ emitted st st' line)
  /\ (searches trigger1 line = false -> searches trigger2 line = true ->
      read_input (skipn (S (cursor st)) (lines st)) (S (cursor st)) no_fields = Ok (i, fs) ->
      exists st', step st = Ok st' /\ emitted st st' line)
  /\ (searches trigger1 line = false -> searches trigger2 line = false ->
      searches trigger3 line = true -> contains (T "const result") line = false ->
      searches two_parameter line = false ->
      read_call (skipn (S (cursor st)) (lines st)) (S (cursor st)) no_fields = Ok (i, fs) ->
      exists st', step st = Ok st' /\ emitted st st' line)
  /\ (forall r0 last post i0,
        forallb (lacks (T "body:")) (r0 ++ [last]) = true ->
        contains (T "});") last = true ->
        contains (T "agentSessionId:") last = false ->
        contains (T "type:") last = false ->
        exists i1 fs1, read_call (r0 ++ last :: post) i0 no_fields = Ok (i1, fs1)
                       /\ body_lines fs1 = [])
  /\ (forall r0 last post i0,
        forallb (lacks (T "body:")) r0 = true ->
        closing_line last = true ->
        exists i1 fs1, read_input (r0 ++ last :: post) i0 no_fields = Ok (i1, fs1)
                       /\ body_lines fs1 = []).
Proof.
  intros Hl Hb. split; [|split; [|split; [|split]]].
  - intros T1 R Hlog. unfold step. rewrite Hl, T1. unfold pattern1.
    rewrite R. cbn [bind].
    destruct (line_has (lines st) i (T "if (result.success)")) eqn:E.
    + pose proof (@branch1_bound_log (lines st) i (length (skipn (S i) (lines st)))
                    (skipn (S i) (lines st)) (S i) 0%Z false PyNone (le_n _)) as B.
      destruct (branch1 (lines st) i (skipn (S i) (lines st)) (S i) 0 false PyNone)
        as [i' log'].
      apply emitted_by_splice; [exact Hl| | |apply B; discriminate].
      * rewrite nth_error_app1 by (rewrite call_lines_length; lia).
        apply third_call_line, Hb.
      * rewrite length_app, call_lines_length. lia.
    + destruct Hlog as [Hlog|Hlog]; [discriminate|].
      apply emitted_by_splice; [exact Hl| | |exact Hlog].
      * rewrite nth_error_app1 by (rewrite call_lines_length; lia).
        apply third_call_line, Hb.
      * rewrite length_app, call_lines_length. lia.
  - intros T1 T2 R. unfold step. rewrite Hl, T1, T2. unfold pattern2.
    rewrite R. cbn [bind].
    match goal with
    | |- context [if line_has (lines st) ?j (T "if (result.success)") then _ else _] =>
        destruct (line_has (lines st) j (T "if (result.success)"));
        [pose proof (@branch2_bound_log (skipn (S j) (lines st)) (S j) 0%Z PyNone) as B;
         destruct (branch2 (skipn (S j) (lines st)) (S j) 0 PyNone) as [i' log']|]
    end.
    + apply emitted_by_splice; [exact Hl|apply third_call_line, Hb| |apply B; discriminate].
      rewrite call_lines_length. lia.
    + apply emitted_by_splice; [exact Hl|apply third_call_line, Hb| |discriminate].
      rewrite call_lines_length. lia.
  - intros T1 T2 T3 C P R. unfold step. rewrite Hl, T1, T2, T3, C. cbn [negb andb].
    unfold pattern3. rewrite P, R. cbn [bind]. eexists. split; [reflexivity|]. split.
    + apply spliced_line; [eapply line_at_bound, Hl|apply third_call_line, Hb].
    + cbn [splice cursor]. rewrite call_lines_length. lia.
  - intros r0 last post i0 H1 H2 H3 H4.
    apply read_call_without_body; [assumption..|split; reflexivity].
  - intros r0 last post i0 H1 H2.
    apply read_input_without_body; [assumption..|split; reflexivity].
Qed.

Lemma missing_body_witness :
  (exists st', step (start_of inline_without_body) = Ok st'
               /\ emitted (start_of inline_without_body) st'
                    (src 4 (T "const result = await linearClient.createAgentActivity({")))
  /\ (exists st', step (start_of input_without_body) = Ok st'
                  /\ emitted (start_of input_without_body) st'
                       (src 4 (T "const activityInput = {")))
  /\ (exists st', step (start_of await_without_body) = Ok st'
                  /\ emitted (start_of await_without_body) st'
                       (src 4 (T "await linearClient.createAgentActivity({")))
  /\ (exists i1 fs1,
        read_call (fields_without_body ++ src 4 (T "});") :: [src 4 (T "done();")]) 1
                  no_fields = Ok (i1, fs1) /\ body_lines fs1 = [])
  /\ (exists i1 fs1,
        read_input (fields_without_body ++ src 4 (T "};") :: [src 4 (T "done();")]) 1
                   no_fields = Ok (i1, fs1) /\ body_lines fs1 = []).
Proof.
  split; [|split; [|split; [|split]]].
  - apply (proj1 (@missing_body_gets_placeholder (start_of inline_without_body) _ 6 fields_read eq_refl eq_refl));
      [vm_compute; reflexivity..|left; vm_compute; reflexivity].
  - apply (proj1 (proj2 (@missing_body_gets_placeholder (start_of input_without_body) _ 5 fields_read eq_refl eq_refl)));
      vm_compute; reflexivity.
  - apply (proj1 (proj2 (proj2 (@missing_body_gets_placeholder (start_of await_without_body) _ 6 fields_read eq_refl eq_refl))));
      vm_compute; reflexivity.
  - apply (proj1 (proj2 (proj2 (proj2
             (@missing_body_gets_placeholder (start_of await_without_body) _ 6 fields_read eq_refl eq_refl)))));
      vm_compute; reflexivity.
  - apply (proj2 (proj2 (proj2 (proj2
             (@missing_body_gets_placeholder (start_of await_without_body) _ 6 fields_read eq_refl eq_refl)))));
      vm_compute; reflexivity.
Defined.

(** *** The main loop ends *)

Lemma read_call_advances (rest : list text) :
  forall i fs i' fs', read_call rest i fs = Ok (i', fs') -> i <= i'.
Proof.
  induction rest as [|l rest IH]; intros i fs i' fs' H; cbn [read_call] in H.
  - injection H as <- _. lia.
  - destruct (contains (T "agentSessionId:") l); [apply IH in H; lia|].
    destruct (contains (T "type:") l); [apply IH in H; lia|].
    destruct (contains (T "body:") l).
    { destruct (start_body fs l); cbn [bind] in H; [apply IH in H; lia|discriminate]. }
    destruct (body_started fs && negb (startswith (strip l) (T "}")));
      [apply IH in H; lia|].
    destruct (contains (T "});") l); [injection H as <- _; lia|apply IH in H; lia].
Qed.

Lemma read_input_advances (rest : list text) :
  forall i fs i' fs', read_input rest i fs = Ok (i', fs') -> i <= i'.
Proof.
  induction rest as [|l rest IH]; intros i fs i' fs' H; cbn [read_input] in H.
  - injection H as <- _. lia.
  - destruct (closing_line l); [injection H as <- _; lia|].
    destruct (contains (T "agentSessionId:") l); [apply IH in H; lia|].
    destruct (contains (T "type:") l); [apply IH in H; lia|].
    destruct (contains (T "body:") l).
    { destruct (start_body fs l); cbn [bind] in H; [apply IH in H; lia|discriminate]. }
    destruct (body_started fs); apply IH in H; lia.
Qed.

Lemma branch1_advances (ls : list text) (if_start : nat) (n : nat) :
  forall rest i bc ef log,
    length rest <= n -> i <= fst (branch1 ls if_start rest i bc ef log).
Proof.
  induction n as [|n IH]; intros rest i bc ef log Hn.
  - destruct rest; [simpl; lia|simpl in Hn; lia].
  - destruct rest as [|l rest]; [simpl; lia|]. simpl in Hn. cbn [branch1].
    destruct (contains (T "}") l).
    + destruct ((count_open l bc - 1 =? 0)%Z && negb ef).
      * destruct rest as [|l' rest]; [simpl; lia|].
        destruct (contains (T "else") l'); [|simpl; lia].
        match goal with
        | |- _ <= fst (branch1 _ _ _ _ ?b ?e ?g) =>
            pose proof (IH rest (S (S i)) b e g) as B
        end.
        simpl in Hn. specialize (B ltac:(lia)). lia.
      * destruct ((count_open l bc - 1 =? 0)%Z && ef); [simpl; lia|].
        pose proof (IH rest (S i) (count_open l bc - 1)%Z ef log ltac:(lia)). lia.
    + pose proof (IH rest (S i) (count_open l bc) ef log ltac:(lia)). lia.
Qed.

Lemma skip_else_advances (rest : list text) :
  forall i bc, i <= skip_else rest i bc.
Proof.
  induction rest as [|l rest IH]; intros i bc; cbn [skip_else]; [lia|].
  destruct (contains (T "}") l).
  - destruct (count_open l bc - 1 =? 0)%Z; [lia|].
    pose proof (IH (S i) (count_open l bc - 1)%Z). lia.
  - pose proof (IH (S i) (count_open l bc)). lia.
Qed.

Lemma branch2_advances (rest : list text) :
  forall i bc log, i <= fst (branch2 rest i bc log).
Proof.
  induction rest as [|l rest IH]; intros i bc log; cbn [branch2]; [simpl; lia|].
  destruct (contains (T "}") l).
  - destruct (count_open l bc - 1 =? 0)%Z.
    + destruct rest as [|l' rest]; [simpl; lia|].
      destruct (contains (T "else") l'); [|simpl; lia].
      cbn [fst]. pose proof (skip_else_advances rest (S (S i)) 0). lia.
    + match goal with
      | |- _ <= fst (branch2 _ _ ?b ?g) => pose proof (IH (S i) b g)
      end. lia.
  - match goal with
    | |- _ <= fst (branch2 _ _ ?b ?g) => pose proof (IH (S i) b g)
    end. lia.
Qed.

(** What is left to scan after a splice that consumed at least one line. *)
Lemma splice_left (st : state) (i : nat) (new_lines : list text) (log : pyvar) :
  cursor st < length (lines st) -> cursor st < i ->
  length (lines (splice st (cursor st) i new_lines log))
  - cursor (splice st (cursor st) i new_lines log)
  < length (lines st) - cursor st.
Proof.
  intros Hc Hi. cbn [splice lines cursor].
  rewrite !length_app, length_firstn, length_skipn. lia.
Qed.

(** Every iteration leaves strictly fewer lines after the cursor. *)
Lemma step_progress (st st' : state) :
  cursor st < length (lines st) -> step st = Ok st' ->
  length (lines st') - cursor st' < length (lines st) - cursor st.
Proof.
  intros Hc. unfold step.
  destruct (line_at (lines st) (cursor st)) as [line|] eqn:Hl.
  2:{ apply nth_error_None in Hl. lia. }
  destruct (searches trigger1 line).
  { unfold pattern1.
    destruct (read_call _ _ _) as [[i fs]|] eqn:R; cbn [bind]; [|discriminate].
    apply read_call_advances in R.
    destruct (line_has (lines st) i (T "if (result.success)")).
    - pose proof (@branch1_advances (lines st) i _ (skipn (S i) (lines st)) (S i) 0%Z false
                    PyNone (le_n _)) as B.
      destruct (branch1 _ _ _ _ _ _ _) as [i' log]. cbn [fst] in B.
      destruct (with_log _ log); cbn [bind]; [|discriminate].
      intros [= <-]. apply splice_left; lia.
    - destruct (with_log _ (success_log st)); cbn [bind]; [|discriminate].
      intros [= <-]. apply splice_left; lia. }
  destruct (searches trigger2 line).
  { unfold pattern2.
    destruct (read_input _ _ _) as [[i fs]|] eqn:R; cbn [bind]; [|discriminate].
    apply read_input_advances in R.
    set (i1 := if i <? length (lines st) then S i else i).
    set (i2 := match line_at (lines st) i1 with
               | Some l => match strip l with [] => S i1 | _ => i1 end
               | None => i1
               end).
    set (i3 := if line_has (lines st) i2
                    (T "const result = await linearClient.createAgentActivity(activityInput)")
               then S i2 else i2).
    assert (H1 : i <= i1) by (unfold i1; destruct (i <? length (lines st)); lia).
    assert (H2 : i1 <= i2).
    { unfold i2. destruct (line_at (lines st) i1) as [l|]; [|lia].
      destruct (strip l); lia. }
    assert (H3 : i2 <= i3) by (unfold i3; destruct (line_has _ i2 _); lia).
    destruct (line_has (lines st) i3 (T "if (result.success)")).
    - pose proof (branch2_advances (skipn (S i3) (lines st)) (S i3) 0%Z PyNone) as B.
      destruct (branch2 _ _ _ _) as [i' log]. cbn [fst] in B.
      destruct (with_log _ log); cbn [bind]; [|discriminate].
      intros [= <-]. apply splice_left; lia.
    - destruct (with_log _ PyNone); cbn [bind]; [|discriminate].
      intros [= <-]. apply splice_left; lia. }
  destruct (searches trigger3 line && negb (contains (T "const result") line)).
  { unfold pattern3. destruct (searches two_parameter line).
    - intros [= <-]. cbn [lines cursor]. lia.
    - destruct (read_call _ _ _) as [[i fs]|] eqn:R; cbn [bind]; [|discriminate].
      apply read_call_advances in R.
      intros [= <-]. apply splice_left; lia. }
  intros [= <-]. cbn [lines cursor]. lia.
Qed.

Lemma main_loop_ends (fuel : nat) :
  forall st, length (lines st) - cursor st <= fuel -> main_loop fuel st <> OutOfFuel.
Proof.
  induction fuel as [|fuel IH]; intros st Hf.
  - simpl. destruct (cursor st <? length (lines st)) eqn:E; [|discriminate].
    apply Nat.ltb_lt in E. lia.
  - simpl. destruct (cursor st <? length (lines st)) eqn:E; [|discriminate].
    apply Nat.ltb_lt in E.
    destruct (step st) as [st'|e] eqn:Hs; [|discriminate].
    apply IH. pose proof (@step_progress st st' E Hs). lia.
Qed.

(** The fuel given to the main loop is enough: the script ends, with the
    rewritten lines or with an exception. *)
Theorem scanner_terminates (ls : list text) :
  fix_all_create_activity ls <> OutOfFuel.
Proof. apply main_loop_ends. simpl. lia. Qed.

(** A file none of whose lines starts an idiom is written back as it was
    read. *)
Lemma main_loop_quiet (fuel : nat) :
  forall st, length (lines st) - cursor st <= fuel ->
             forallb (fun l => negb (triggers l)) (lines st) = true ->
             main_loop fuel st = Written (lines st).
Proof.
  induction fuel as [|fuel IH]; intros st Hf Hq; simpl;
    destruct (cursor st <? length (lines st)) eqn:E; try reflexivity;
    apply Nat.ltb_lt in E; [lia|].
  unfold step. destruct (line_at (lines st) (cursor st)) as [line|] eqn:Hl.
  2:{ apply nth_error_None in Hl. lia. }
  assert (Q : triggers line = false).
  { apply negb_true_iff. apply (proj1 (forallb_forall _ _) Hq).
    eapply nth_error_In, Hl. }
  unfold triggers in Q. apply orb_false_elim in Q as [Q Q3].
  apply orb_false_elim in Q as [Q1 Q2]. rewrite Q1, Q2, Q3.
  rewrite (IH {| lines := lines st; cursor := S (cursor st);
                 success_log := success_log st |}); cbn [lines cursor]; [reflexivity|lia|exact Hq].
Qed.

(** The script on a file none of whose lines starts an idiom: the lines
    are written back as they were read. *)
Lemma scanner_leaves_converted_file (ls : list text) :
  forallb (fun l => negb (triggers l)) ls = true ->
  fix_all_create_activity ls = Written ls.
Proof.
  intros H. unfold fix_all_create_activity.
  apply (@main_loop_quiet (length ls)); [simpl; lia|exact H].
Qed.

(** *** Where the scanner goes wrong *)

(** C8.  An inline [const result = await ...] call that no
    [if (result.success)] line follows: [success_log] was never assigned when
    [if success_log:] reads it, and the script stops with a [NameError]
    instead of splicing in the call. *)
Theorem inline_call_without_branch_raises :
  fix_all_create_activity inline_without_branch = Crashed (NameError "success_log")
  /\ step (start_of inline_without_branch) = Raise (NameError "success_log").
Proof. split; vm_compute; reflexivity. Qed.

(** C10.  An inline call without [body:] line that no branch follows: the
    placeholder call is built but never written, the script stops with the
    [NameError] of C8.  With the branch after it, or for the other two
    patterns, the same fields give the call with [body: body,]. *)
Theorem missing_body_without_branch_raises :
  fix_all_create_activity inline_bare = Crashed (NameError "success_log")
  /\ (exists out, fix_all_create_activity inline_without_body = Written out
                  /\ nth_error out 2 = Some (tabs 2 ++ T "body: body," ++ [nl]))
  /\ (exists out, fix_all_create_activity await_without_body = Written out
                  /\ nth_error out 2 = Some (tabs 2 ++ T "body: body," ++ [nl])).
Proof.
  split; [vm_compute; reflexivity|].
  split; eexists; split; vm_compute; reflexivity.
Qed.

(** After an [activityInput] idiom has left its log line in [success_log],
    the same input is spliced with that stale line appended. *)
Lemma inline_call_without_branch_reuses_log :
  step {| lines := inline_without_branch; cursor := 0;
          success_log := PyStr (src 8 (T "console.log(0);")) |}
  = Ok {| lines := [tabs 1 ++ T "await linearClient.createAgentActivity(sessionId, {" ++ [nl];
                    tabs 2 ++ T "type: AgentActivityContentType.Thought," ++ [nl];
                    tabs 2 ++ T "body: text," ++ [nl];
                    tabs 1 ++ T "});" ++ [nl];
                    [nl];
                    src 8 (T "console.log(0);");
                    src 4 (T "return result;")];
          cursor := 6;
          success_log := PyStr (src 8 (T "console.log(0);")) |}.
Proof. vm_compute. reflexivity. Qed.

(** C3.  A body spread over several lines loses the line that starts with
    its closing brace: the scanner emits [JSON.stringify({ a: 1] for the body
    [JSON.stringify({ a: 1, })].  The regex rewriter ends the body at its
    first closing brace when a comma and a closing of the call follow it. *)
Theorem body_with_braces_is_truncated :
  (exists out, fix_all_create_activity inline_with_object_body = Written out
               /\ nth_error out 2 = Some (tabs 2 ++ T "body: JSON.stringify({ a: 1," ++ [nl]))
  /\ read_call (skipn 1 inline_with_object_body) 1 no_fields
     = Ok (9, {| session_id := Some (T "sessionId"); type_val := Some (T "Thought");
                 body_lines := [T "JSON.stringify({"; T "a: 1"];
                 body_started := true |})
  /\ RegexRewriter.pass2 await_with_nested_braces
     = tabs 1 ++ T "await linearClient.createAgentActivity(sessionId, {" ++ [nl]
       ++ tabs 2 ++ T "type: AgentActivityContentType.Thought," ++ [nl]
       ++ tabs 2 ++ T "body: run(() => { emit({ x: { a: 1 " ++ [nl]
       ++ tabs 1 ++ T "});"
       ++ T " })," ++ [nl]
       ++ tabs 2 ++ T "}," ++ [nl]
       ++ tabs 1 ++ T "});" ++ [nl].
Proof.
  split; [|split].
  - eexists. split; vm_compute; reflexivity.
  - vm_compute. reflexivity.
  - vm_compute. reflexivity.
Qed.

End LineScannerFacts.

(** ** Where the signature rewriter goes wrong *)

Section SignatureFacts.

Import Signatures Samples.

(** C6.  On the old calls of its own comments the script keeps the space
    that stood before the closing brace inside the new call, where the
    comments promise [fetchComments(issue.id)], [fetchComment(newComment.id)]
    and [fetchWorkflowStates(team.id)]. *)
Theorem fetch_rewrites_keep_inner_space :
  fix_method_signatures old_fetchComments = T "await linearClient.fetchComments(issue.id )"
  /\ fix_method_signatures old_fetchComment = T "await linearClient.fetchComment(newComment.id )"
  /\ fix_method_signatures old_fetchWorkflowStates
     = T "await linearClient.fetchWorkflowStates(team.id )".
Proof. repeat split; vm_compute; reflexivity. Qed.

(** C7.  The character matched after [.parent] is consumed, so of two
    adjacent occurrences only the first is renamed; the second is renamed by
    the next application, and an occurrence that ends the text never is. *)
Theorem parent_rename_skips_adjacent_occurrence :
  fix4 grandparent = T "const top = issue.parentId.parent;"
  /\ fix4 (fix4 grandparent) = T "const top = issue.parentId.parentId;"
  /\ fix4 (T "issue.parent") = T "issue.parent".
Proof. repeat split; vm_compute; reflexivity. Qed.

(** C2.  A second run of the signature script changes the file the first
    run produced. *)
Theorem second_run_changes_converted_file :
  fix_method_signatures (fix_method_signatures grandparent)
  <> fix_method_signatures grandparent.
Proof. vm_compute. discriminate. Qed.

(** What does hold: the new form is not matched at the place where it was
    written, a call without white space before the closing brace comes out as
    the comments say, and a text without the old openers passes through the
    three call rewrites unchanged. *)
Lemma parentId_never_matched (rest : text) :
  re_match pat_parent (T ".parentId" ++ rest) = None.
Proof. reflexivity. Qed.

Lemma tight_fetchComments_rewritten :
  fix_method_signatures
    (T "await linearClient.fetchComments({filter:{issue:{id:{eq:issue.id}}}})")
  = T "await linearClient.fetchComments(issue.id)".
Proof. vm_compute. reflexivity. Qed.

(** A text without the opener of an old call form passes through the
    rewrite of that form unchanged. *)
Lemma converted_calls_untouched (t : text) :
  (contains (T "await linearClient.fetchComments({") t = false -> fix1 t = t)
  /\ (contains (T "await linearClient.fetchComment({") t = false -> fix2 t = t)
  /\ (contains (T "await linearClient.fetchWorkflowStates({") t = false -> fix3 t = t).
Proof.
  repeat split; intros H; apply sub_from_unmatched;
    (eapply unmatched_everywhere; [|exact H]);
    intros u Hu; apply match_needs_first_literal; exact Hu.
Qed.

End SignatureFacts.

(** * Further properties *)

(** ** The regex rewriter *)

Section RegexRewriterMore.

Import Idiom RegexRewriter Samples Shapes.










(** A pattern that starts with a group of one or more characters of a set
    matches nowhere in a text without such a character. *)
Lemma leading_run_needed (n : nat) (c : cset) (rs : list regex) (s : text) :
  forallb (fun a => negb (c a)) s = true ->
  has_match (seq (Grp n (Plus c) :: rs)) s = false.
Proof.
  induction s as [|a s IH]; intros H.
  - reflexivity.
  - simpl in H. apply andb_prop in H as [Ha Hs]. apply negb_true_iff in Ha.
    unfold has_match. fold has_match.
    assert (E : re_match (seq (Grp n (Plus c) :: rs)) (a :: s) = None).
    { unfold re_match. simpl. rewrite Ha. reflexivity. }
    rewrite E. apply IH, Hs.
Qed.

(** All three patterns start with [(\t+)]: a file without a tab, for
    instance one indented with spaces, comes back as it was and no fix is
    counted, whatever calls it holds. *)
Theorem file_without_tabs_untouched (t : text) :
  tab_free t = true -> fix_create_activity t = (t, 0).
Proof.
  intros H. unfold fix_create_activity, pass1, pass2, pass3.
  assert (H1 : has_match pattern1 t = false) by (apply leading_run_needed, H).
  assert (H2 : has_match pattern2 t = false) by (apply leading_run_needed, H).
  assert (H3 : has_match pattern3 t = false) by (apply leading_run_needed, H).
  rewrite (@sub_from_unmatched pattern1 _ t H1), (@sub_from_unmatched pattern2 _ t H2),
    (@sub_from_unmatched pattern3 _ t H3).
  rewrite (@count_unmatched pattern1 t H1), (@count_unmatched pattern2 t H2),
    (@count_unmatched pattern3 t H3).
  reflexivity.
Qed.

(** The inline idiom of the sample, indented with spaces. *)
Lemma file_without_tabs_witness :
  fix_create_activity (concat inline_without_branch) = (concat inline_without_branch, 0).
Proof. apply file_without_tabs_untouched. vm_compute. reflexivity. Defined.

Lemma converted_text_witness :
  pass1 (new_inline sample_shape) = new_inline sample_shape
  /\ pass2 (new_inline sample_shape) = new_inline sample_shape
  /\ pass3 (new_inline sample_shape) = new_inline sample_shape.
Proof.
  destruct (converted_text_untouched (new_inline sample_shape)) as [H1 [H2 H3]].
  split; [|split]; [apply H1|apply H2|apply H3]; vm_compute; reflexivity.
Defined.

End RegexRewriterMore.

(** ** The signature rewriter *)

Section SignatureMore.

Import Signatures Samples Shapes.

Lemma first_lit_conv (l full s : text) (e : env) :
  full = l ++ s -> hd_error (run (Lit l) full e) = Some (e, s).
Proof. intros ->. apply first_lit. Qed.

Lemma first_cls (c : cset) (a : ascii) (s : text) (e : env) :
  c a = true -> hd_error (run (Cls c) (a :: s) e) = Some (e, s).
Proof. intros H. simpl. rewrite H. reflexivity. Qed.

Lemma blanks_at (ws : nat -> text) (n k : nat) :
  blanks ws n = true -> k < n -> forallb is_space (ws k) = true.
Proof.
  intros H Hk. apply (proj1 (forallb_forall _ _) H). apply in_seq. lia.
Qed.

Lemma stops_at_lead (c : cset) (x s : text) :
  x <> [] -> forallb (fun a => negb (c a)) (firstn 1 x) = true -> stops c (x ++ s) = true.
Proof.
  destruct x as [|a x]; [congruence|]. simpl. intros _ H.
  apply andb_prop in H as [H _]. exact H.
Qed.

Lemma plain_arg_inv (arg : text) :
  plain_arg arg = true ->
  arg <> [] /\ no_leading_space arg = true /\ forallb (any_but (T "}")) arg = true.
Proof.
  unfold plain_arg. intros H. apply andb_prop in H as [H H3]. apply andb_prop in H as [H1 H2].
  repeat split; try assumption. destruct arg; [discriminate|congruence].
Qed.

Lemma stops_before_arg (arg s : text) :
  arg <> [] -> no_leading_space arg = true -> stops space (arg ++ s) = true.
Proof. destruct arg as [|a arg]; [congruence|]. intros _ H. exact H. Qed.

Lemma filter_call_first (head field : text) (ws : nat -> text) (arg trail post : text) :
  field <> [] -> no_leading_space field = true ->
  blanks ws 11 = true -> plain_arg arg = true -> forallb is_space trail = true ->
  re_match (seq (filter_pieces head field)) (filter_call head field ws arg trail ++ post)
  = Some ([(1, arg ++ trail)], post).
Proof.
  intros Hf Hfl Hws Harg Htrail.
  apply plain_arg_inv in Harg as [Hne [Hlead Hfree]].
  assert (B : forall k, k < 11 -> forallb is_space (ws k) = true)
    by (intros k Hk; eapply blanks_at; eassumption).
  unfold re_match, filter_pieces, filter_call. rewrite <- !app_assoc.
  eapply first_seq_cons; [apply first_lit|].
  eapply first_seq_cons; [apply first_star; [apply B; lia|reflexivity]|].
  eapply first_seq_cons; [apply first_lit|].
  eapply first_seq_cons; [apply first_star; [apply B; lia|reflexivity]|].
  eapply first_seq_cons; [apply first_lit|].
  eapply first_seq_cons;
    [apply first_star; [apply B; lia|apply stops_before_arg; assumption]|].
  eapply first_seq_cons; [apply first_lit|].
  eapply first_seq_cons; [apply first_star; [apply B; lia|reflexivity]|].
  eapply first_seq_cons; [apply first_lit|].
  eapply first_seq_cons; [apply first_star; [apply B; lia|reflexivity]|].
  eapply first_seq_cons; [apply first_lit|].
  eapply first_seq_cons; [apply first_star; [apply B; lia|reflexivity]|].
  eapply first_seq_cons; [apply first_lit|].
  eapply first_seq_cons; [apply first_star; [apply B; lia|reflexivity]|].
  eapply first_seq_cons; [apply first_lit|].
  eapply first_seq_cons;
    [apply first_star; [apply B; lia|apply stops_before_arg; assumption]|].
  eapply first_seq_cons.
  { eapply first_grp with (x := arg ++ trail);
      [rewrite <- !app_assoc; reflexivity|].
    apply first_plus.
    - destruct arg; [congruence|discriminate].
    - rewrite forallb_app, Hfree. apply space_is_not; [reflexivity|exact Htrail].
    - reflexivity. }
  eapply first_seq_cons; [apply (first_star space [] _ _ eq_refl); reflexivity|].
  eapply first_seq_cons; [apply first_lit_conv; reflexivity|].
  eapply first_seq_cons; [apply first_star; [apply B; lia|reflexivity]|].
  eapply first_seq_cons; [apply first_lit|].
  eapply first_seq_cons; [apply first_star; [apply B; lia|reflexivity]|].
  eapply first_seq_cons; [apply first_lit|].
  eapply first_seq_cons; [apply first_star; [apply B; lia|reflexivity]|].
  eapply first_seq_cons; [apply first_lit|].
  eapply first_seq_cons; [apply first_lit|].
  apply first_seq_nil.
Qed.

Lemma id_call_first (ws : nat -> text) (arg trail post : text) :
  blanks ws 2 = true -> plain_arg arg = true -> forallb is_space trail = true ->
  re_match pat_fetchComment (id_call ws arg trail ++ post) = Some ([(1, arg ++ trail)], post).
Proof.
  intros Hws Harg Htrail.
  apply plain_arg_inv in Harg as [Hne [Hlead Hfree]].
  assert (B : forall k, k < 2 -> forallb is_space (ws k) = true)
    by (intros k Hk; eapply blanks_at; eassumption).
  unfold re_match, pat_fetchComment, id_call. rewrite <- !app_assoc.
  eapply first_seq_cons; [apply first_lit|].
  eapply first_seq_cons; [apply first_star; [apply B; lia|reflexivity]|].
  eapply first_seq_cons; [apply first_lit|].
  eapply first_seq_cons;
    [apply first_star; [apply B; lia|apply stops_before_arg; assumption]|].
  eapply first_seq_cons.
  { eapply first_grp with (x := arg ++ trail);
      [rewrite <- !app_assoc; reflexivity|].
    apply first_plus.
    - destruct arg; [congruence|discriminate].
    - rewrite forallb_app, Hfree. apply space_is_not; [reflexivity|exact Htrail].
    - reflexivity. }
  eapply first_seq_cons; [apply (first_star space [] _ _ eq_refl); reflexivity|].
  eapply first_seq_cons; [apply first_lit_conv; reflexivity|].
  apply first_seq_nil.
Qed.

(** The three old call forms, with any white space where the patterns allow
    it, are replaced by the one-argument call; what the call receives is the
    captured argument together with the white space that stood between it and
    the closing brace. *)
Theorem fetch_calls_take_captured_argument (ws : nat -> text) (arg trail pre post : text) :
  blanks ws 11 = true -> plain_arg arg = true -> forallb is_space trail = true ->
  (matches_none pat_fetchComments pre (old_comments_call ws arg trail ++ post) = true ->
   fix1 (pre ++ old_comments_call ws arg trail ++ post)
   = pre ++ T "await linearClient.fetchComments(" ++ arg ++ trail ++ T ")" ++ fix1 post)
  /\ (matches_none pat_fetchComment pre (id_call ws arg trail ++ post) = true ->
      fix2 (pre ++ id_call ws arg trail ++ post)
      = pre ++ T "await linearClient.fetchComment(" ++ arg ++ trail ++ T ")" ++ fix2 post)
  /\ (matches_none pat_fetchWorkflowStates pre (old_states_call ws arg trail ++ post) = true ->
      fix3 (pre ++ old_states_call ws arg trail ++ post)
      = pre ++ T "await linearClient.fetchWorkflowStates(" ++ arg ++ trail ++ T ")"
        ++ fix3 post).
Proof.
  intros Hws Harg Htrail.
  assert (Hws2 : blanks ws 2 = true).
  { apply forallb_forall. intros k Hk. apply in_seq in Hk.
    eapply blanks_at; [exact Hws|lia]. }
  split; [|split]; intros Hpre.
  - unfold fix1. rewrite sub_from_prefix by exact Hpre.
    erewrite sub_from_match;
      [|discriminate
       |apply (@filter_call_first (T "await linearClient.fetchComments({") (T "issue:"));
        [discriminate|reflexivity|assumption..]].
    unfold expand, repl_fetchComments. cbn [flat_map group Nat.eqb].
    rewrite <- !app_assoc. reflexivity.
  - unfold fix2. rewrite sub_from_prefix by exact Hpre.
    erewrite sub_from_match; [|discriminate|apply id_call_first; assumption].
    unfold expand, repl_fetchComment. cbn [flat_map group Nat.eqb].
    rewrite <- !app_assoc. reflexivity.
  - unfold fix3. rewrite sub_from_prefix by exact Hpre.
    erewrite sub_from_match;
      [|discriminate
       |apply (@filter_call_first (T "await linearClient.fetchWorkflowStates({") (T "team:"));
        [discriminate|reflexivity|assumption..]].
    unfold expand, repl_fetchWorkflowStates. cbn [flat_map group Nat.eqb].
    rewrite <- !app_assoc. reflexivity.
Qed.

Lemma fetch_calls_witness :
  fix1 (T "const c = "
        ++ old_comments_call (fun _ => T " ") (T "issue.id") (T " ") ++ T ";")
  = T "const c = " ++ T "await linearClient.fetchComments(" ++ T "issue.id" ++ T " "
    ++ T ")" ++ fix1 (T ";").
Proof.
  apply (proj1 (@fetch_calls_take_captured_argument (fun _ => T " ") (T "issue.id") (T " ")
                  (T "const c = ") (T ";") eq_refl eq_refl eq_refl)).
  vm_compute. reflexivity.
Defined.

Lemma parent_first (c : ascii) (post : text) :
  c <> "I"%char ->
  re_match pat_parent (T ".parent" ++ c :: post) = Some ([(1, [c])], post).
Proof.
  intros Hc. unfold re_match, pat_parent.
  eapply first_seq_cons; [apply first_lit|].
  eapply first_seq_cons.
  { eapply first_grp with (x := [c]); [reflexivity|]. apply first_cls.
    unfold any_but. cbn [T list_ascii_of_string existsb].
    destruct (Ascii.eqb c "I") eqn:E; [apply Ascii.eqb_eq in E; congruence|reflexivity]. }
  apply first_seq_nil.
Qed.

(** [.parent] followed by a character other than [I] becomes [.parentId]
    followed by that character, and the search goes on after it: the
    character is part of the match.  A [.parent] that ends the text and a
    [.parentI...] stay as they are. *)
Theorem parent_renamed_with_next_character (pre post : text) (c : ascii) :
  (c <> "I"%char ->
   matches_none pat_parent pre (T ".parent" ++ c :: post) = true ->
   fix4 (pre ++ T ".parent" ++ c :: post) = pre ++ T ".parentId" ++ c :: fix4 post)
  /\ (matches_none pat_parent pre (T ".parent") = true ->
      fix4 (pre ++ T ".parent") = pre ++ T ".parent")
  /\ (matches_none pat_parent pre (T ".parentI" ++ post) = true ->
      fix4 (pre ++ T ".parentI" ++ post) = pre ++ T ".parentI" ++ fix4 post).
Proof.
  split; [|split].
  - intros Hc Hpre. unfold fix4. rewrite sub_from_prefix by exact Hpre.
    change (T ".parent" ++ c :: post) with ((T ".parent" ++ [c]) ++ post).
    erewrite sub_from_match; [|discriminate|apply parent_first, Hc].
    reflexivity.
  - intros Hpre. unfold fix4. rewrite sub_from_prefix by exact Hpre.
    reflexivity.
  - intros Hpre. unfold fix4. rewrite sub_from_prefix by exact Hpre.
    reflexivity.
Qed.

Lemma parent_renamed_witness :
  fix4 (T "issue" ++ T ".parent" ++ "?"%char :: T ".id")
  = T "issue" ++ T ".parentId" ++ "?"%char :: fix4 (T ".id").
Proof.
  apply (proj1 (parent_renamed_with_next_character (T "issue") (T ".id") "?"%char));
    [discriminate|vm_compute; reflexivity].
Defined.

Lemma converted_calls_witness :
  fix1 (T "await linearClient.fetchComments(issue.id)")
  = T "await linearClient.fetchComments(issue.id)".
Proof.
  apply (proj1 (converted_calls_untouched (T "await linearClient.fetchComments(issue.id)"))).
  vm_compute. reflexivity.
Defined.

End SignatureMore.

(** ** The line scanner *)

Section LineScannerMore.

Import LineScanner Samples Shapes.

Lemma in_firstn {A : Type} (n : nat) (ls : list A) (l : A) : In l (firstn n ls) -> In l ls.
Proof. intros H. rewrite <- (firstn_skipn n ls). apply in_or_app. left. exact H. Qed.

Lemma in_skipn {A : Type} (n : nat) (ls : list A) (l : A) : In l (skipn n ls) -> In l ls.
Proof. intros H. rewrite <- (firstn_skipn n ls). apply in_or_app. right. exact H. Qed.

Lemma in_slice (ls : list text) (a b : nat) (l : text) : In l (slice ls a b) -> In l ls.
Proof.
  unfold slice. intros H. apply in_firstn in H. apply in_skipn in H. exact H.
Qed.

Lemma find_in (f : text -> bool) (ls : list text) (l : text) :
  find f ls = Some l -> In l ls.
Proof. intros H. apply find_some in H. apply H. Qed.

(** The log line the branch of pattern 1 returns is the one it was given
    or a line of the file. *)
Lemma branch1_log_from (ls : list text) (if_start : nat) (n : nat) :
  forall rest i bc ef log,
    length rest <= n ->
    snd (branch1 ls if_start rest i bc ef log) = log
    \/ exists s, snd (branch1 ls if_start rest i bc ef log) = PyStr s /\ In s ls.
Proof.
  induction n as [|n IH]; intros rest i bc ef log Hn.
  - destruct rest; [left; reflexivity|simpl in Hn; lia].
  - destruct rest as [|l rest]; [left; reflexivity|]. simpl in Hn. cbn [branch1].
    destruct (contains (T "}") l); [|apply IH; lia].
    destruct ((count_open l bc - 1 =? 0)%Z && negb ef).
    + destruct (find (contains (T "console.log")) (slice ls (if_start + 1) i)) as [lj|] eqn:F.
      * assert (Hin : In lj ls) by (eapply in_slice, find_in, F).
        destruct rest as [|l' rest]; [right; exists lj; split; [reflexivity|exact Hin]|].
        destruct (contains (T "else") l');
          [|right; exists lj; split; [reflexivity|exact Hin]].
        destruct (IH rest (S (S i)) 0%Z true (PyStr lj) ltac:(simpl in Hn; lia))
          as [E|[s [E Hs]]].
        -- right. exists lj. split; [exact E|exact Hin].
        -- right. exists s. split; assumption.
      * destruct rest as [|l' rest]; [left; reflexivity|].
        destruct (contains (T "else") l'); [|left; reflexivity].
        apply IH. simpl in Hn. lia.
    + destruct ((count_open l bc - 1 =? 0)%Z && ef); [left; reflexivity|].
      apply IH. lia.
Qed.

Lemma branch2_log_from (rest : list text) :
  forall i bc log,
    snd (branch2 rest i bc log) = log
    \/ exists s, snd (branch2 rest i bc log) = PyStr s /\ In s rest.
Proof.
  induction rest as [|l rest IH]; intros i bc log; [left; reflexivity|]. cbn [branch2].
  assert (Hlog : (if contains (T "console.log") l then PyStr l else log) = log
                 \/ (if contains (T "console.log") l then PyStr l else log) = PyStr l)
    by (destruct (contains (T "console.log") l); [right|left]; reflexivity).
  assert (Hrec : forall bc',
             snd (branch2 rest (S i) bc' (if contains (T "console.log") l then PyStr l else log))
             = log
             \/ exists s,
                 snd (branch2 rest (S i) bc'
                        (if contains (T "console.log") l then PyStr l else log)) = PyStr s
                 /\ In s (l :: rest)).
  { intros bc'.
    destruct (IH (S i) bc' (if contains (T "console.log") l then PyStr l else log))
      as [E|[s [E Hs]]].
    - rewrite E. destruct Hlog as [H|H]; [left; exact H|].
      right. exists l. split; [exact H|left; reflexivity].
    - right. exists s. split; [exact E|right; exact Hs]. }
  assert (Hnow : snd (S i, if contains (T "console.log") l then PyStr l else log) = log
                 \/ exists s,
                     snd (S i, if contains (T "console.log") l then PyStr l else log) = PyStr s
                     /\ In s (l :: rest)).
  { cbn [snd]. destruct Hlog as [H|H]; [left; exact H|].
    right. exists l. split; [exact H|left; reflexivity]. }
  destruct (contains (T "}") l); [|apply Hrec].
  destruct (count_open l bc - 1 =? 0)%Z; [|apply Hrec].
  destruct rest as [|l' rest]; [exact Hnow|].
  destruct (contains (T "else") l'); exact Hnow.
Qed.

Lemma with_log_lines (new_lines new_lines' : list text) (log : pyvar) :
  with_log new_lines log = Ok new_lines' ->
  forall l, In l new_lines' -> In l new_lines \/ log = PyStr l.
Proof.
  destruct log as [| |[|c s]]; simpl; intros [= <-] l Hl; try (left; exact Hl).
  apply in_app_or in Hl as [Hl|[<-|[]]]; [left; exact Hl|right; reflexivity].
Qed.

Lemma in_splice (st : state) (a i : nat) (new_lines : list text) (log : pyvar) (l : text) :
  In l (lines (splice st a i new_lines log)) -> In l (lines st) \/ In l new_lines.
Proof.
  cbn [splice lines]. intros H.
  apply in_app_or in H as [H|H]; [left; eapply in_firstn, H|].
  apply in_app_or in H as [H|H]; [right; exact H|left; eapply in_skipn, H].
Qed.

Lemma call_lines_generated (n : nat) (fs : fields) (l : text) :
  In l (call_lines n fs) -> generated l.
Proof. intros H. right. exists n, fs. exact H. Qed.

Lemma step_from_file (ls : list text) (st st' : state) :
  from_file ls st -> step st = Ok st' -> from_file ls st'.
Proof.
  intros [HL HS]. unfold step.
  destruct (line_at (lines st) (cursor st)) as [line|]; [|intros [= <-]; split; assumption].
  destruct (searches trigger1 line).
  { unfold pattern1.
    destruct (read_call _ _ _) as [[i fs]|]; cbn [bind]; [|discriminate].
    set (new := call_lines (indent_of line) fs ++ [[nl]]).
    assert (Hnew : forall l, In l new -> generated l).
    { intros l Hl. apply in_app_or in Hl as [Hl|[<-|[]]];
        [eapply call_lines_generated, Hl|left; reflexivity]. }
    assert (Hfin : forall i' log,
               (forall s, log = PyStr s -> In s ls \/ generated s) ->
               (new_lines <- with_log new log ;; Ok (splice st (cursor st) i' new_lines log))
               = Ok st' -> from_file ls st').
    { intros i' log Hlog.
      destruct (with_log new log) as [new'|] eqn:W; cbn [bind]; [|discriminate].
      intros [= <-]. split.
      - intros l Hl. apply in_splice in Hl as [Hl|Hl]; [apply HL, Hl|].
        destruct (with_log_lines _ _ W _ Hl) as [H|H]; [right; apply Hnew, H|apply Hlog, H].
      - cbn [splice success_log]. exact Hlog. }
    destruct (line_has (lines st) i (T "if (result.success)")).
    - pose proof (@branch1_log_from (lines st) i _ (skipn (S i) (lines st)) (S i) 0%Z false
                    PyNone (le_n _)) as B.
      destruct (branch1 _ _ _ _ _ _ _) as [i' log]. cbn [snd] in B.
      apply Hfin. intros s Hs. destruct B as [B|[s' [B Hin]]]; [congruence|].
      apply HL. congruence.
    - apply Hfin. exact HS. }
  destruct (searches trigger2 line).
  { unfold pattern2.
    destruct (read_input _ _ _) as [[i fs]|]; cbn [bind]; [|discriminate].
    assert (Hfin : forall i' log,
               (forall s, log = PyStr s -> In s ls \/ generated s) ->
               (new_lines <- with_log (call_lines (indent_of line) fs) log ;;
                Ok (splice st (cursor st) i' new_lines log))
               = Ok st' -> from_file ls st').
    { intros i' log Hlog.
      destruct (with_log _ log) as [new'|] eqn:W; cbn [bind]; [|discriminate].
      intros [= <-]. split.
      - intros l Hl. apply in_splice in Hl as [Hl|Hl]; [apply HL, Hl|].
        destruct (with_log_lines _ _ W _ Hl) as [H|H];
          [right; eapply call_lines_generated, H|apply Hlog, H].
      - cbn [splice success_log]. exact Hlog. }
    match goal with
    | |- context [if line_has (lines st) ?j (T "if (result.success)") then _ else _] =>
        destruct (line_has (lines st) j (T "if (result.success)"));
        [pose proof (branch2_log_from (skipn (S j) (lines st)) (S j) 0%Z PyNone) as B;
         destruct (branch2 (skipn (S j) (lines st)) (S j) 0 PyNone) as [i' log']|]
    end.
    - apply Hfin. cbn [snd] in B. intros s Hs. destruct B as [B|[s' [B Hin]]]; [congruence|].
      apply HL. apply in_skipn in Hin. congruence.
    - apply Hfin. discriminate. }
  destruct (searches trigger3 line && negb (contains (T "const result") line)).
  { unfold pattern3. destruct (searches two_parameter line).
    - intros [= <-]. split; assumption.
    - destruct (read_call _ _ _) as [[i fs]|]; cbn [bind]; [|discriminate].
      intros [= <-]. split; [|exact HS].
      intros l Hl. apply in_splice in Hl as [Hl|Hl];
        [apply HL, Hl|right; eapply call_lines_generated, Hl]. }
  intros [= <-]. split; assumption.
Qed.

Lemma main_loop_from_file (ls : list text) (fuel : nat) :
  forall st out, from_file ls st -> main_loop fuel st = Written out ->
                 forall l, In l out -> In l ls \/ generated l.
Proof.
  induction fuel as [|fuel IH]; intros st out Hst; simpl;
    destruct (cursor st <? length (lines st)); try discriminate;
    try (intros [= <-]; apply Hst).
  destruct (step st) as [st'|e] eqn:E; [|discriminate].
  apply IH. eapply step_from_file; eassumption.
Qed.

(** Whatever the file holds, every line the scanner writes back is a line
    it read or a line of a reconstructed call (or the empty line that
    follows it): no other text is made up, and no line is altered. *)
Theorem scanner_adds_only_call_lines (ls out : list text) :
  fix_all_create_activity ls = Written out ->
  forall l, In l out -> In l ls \/ generated l.
Proof.
  unfold fix_all_create_activity. apply main_loop_from_file.
  split; [intros l Hl; left; exact Hl|discriminate].
Qed.

Lemma scanner_adds_witness :
  exists out, fix_all_create_activity await_without_body = Written out
              /\ forall l, In l out -> In l await_without_body \/ generated l.
Proof.
  eexists. split; [vm_compute; reflexivity|].
  apply (scanner_adds_only_call_lines await_without_body). vm_compute. reflexivity.
Defined.

Lemma scanner_leaves_witness :
  fix_all_create_activity (converted (T "    ") (T "sessionId") (T "thought") (T "text"))
  = Written (converted (T "    ") (T "sessionId") (T "thought") (T "text")).
Proof. apply scanner_leaves_converted_file. vm_compute. reflexivity. Defined.

(** *** One iteration replaces one block *)

Lemma splice_block (st : state) (i : nat) (new_lines : list text) (log : pyvar) :
  cursor st <= length (lines st) ->
  firstn (cursor st) (lines (splice st (cursor st) i new_lines log))
  = firstn (cursor st) (lines st)
  /\ skipn (cursor (splice st (cursor st) i new_lines log))
          (lines (splice st (cursor st) i new_lines log))
     = skipn i (lines st).
Proof.
  intros Hc. cbn [splice lines cursor].
  assert (L : length (firstn (cursor st) (lines st)) = cursor st)
    by (rewrite length_firstn; lia).
  split.
  - rewrite firstn_app, L, Nat.sub_diag, firstn_O, app_nil_r.
    rewrite firstn_firstn, Nat.min_id. reflexivity.
  - rewrite skipn_app, L.
    rewrite skipn_all2 by lia.
    replace (cursor st + length new_lines - cursor st) with (length new_lines) by lia.
    rewrite skipn_app, Nat.sub_diag, skipn_all. reflexivity.
Qed.

(** What an iteration leaves: the lines before the cursor, and after the
    new cursor the lines that followed the block it read. *)
Lemma step_block (st st' : state) :
  cursor st < length (lines st) -> step st = Ok st' ->
  exists i, cursor st < i
            /\ firstn (cursor st) (lines st') = firstn (cursor st) (lines st)
            /\ skipn (cursor st') (lines st') = skipn i (lines st)
            /\ cursor st < cursor st'.
Proof.
  intros Hc. unfold step.
  destruct (line_at (lines st) (cursor st)) as [line|] eqn:Hl.
  2:{ apply nth_error_None in Hl. lia. }
  assert (Hsplice : forall i new_lines log,
             cursor st < i -> new_lines <> [] ->
             exists i0, cursor st < i0
               /\ firstn (cursor st) (lines (splice st (cursor st) i new_lines log))
                  = firstn (cursor st) (lines st)
               /\ skipn (cursor (splice st (cursor st) i new_lines log))
                       (lines (splice st (cursor st) i new_lines log))
                  = skipn i0 (lines st)
               /\ cursor st < cursor (splice st (cursor st) i new_lines log)).
  { intros i new_lines log Hi Hne. exists i.
    destruct (@splice_block st i new_lines log ltac:(lia)) as [F K].
    repeat split; try assumption.
    cbn [splice cursor]. destruct new_lines; [congruence|simpl; lia]. }
  assert (Hlog : forall base log new_lines,
             base <> [] -> with_log base log = Ok new_lines -> new_lines <> []).
  { intros base log new_lines Hb W. destruct base as [|b base]; [congruence|].
    destruct log as [| |[|c s]]; simpl in W; try discriminate;
      injection W as <-; discriminate. }
  assert (Hstay : exists i0, cursor st < i0
             /\ firstn (cursor st) (lines st) = firstn (cursor st) (lines st)
             /\ skipn (S (cursor st)) (lines st) = skipn i0 (lines st)
             /\ cursor st < S (cursor st)).
  { exists (S (cursor st)). repeat split; lia. }
  destruct (searches trigger1 line).
  { unfold pattern1.
    destruct (read_call _ _ _) as [[i fs]|] eqn:R; cbn [bind]; [|discriminate].
    apply read_call_advances in R.
    destruct (line_has (lines st) i (T "if (result.success)")).
    - pose proof (@branch1_advances (lines st) i _ (skipn (S i) (lines st)) (S i) 0%Z false
                    PyNone (le_n _)) as B.
      destruct (branch1 _ _ _ _ _ _ _) as [i' log]. cbn [fst] in B.
      destruct (with_log _ log) as [new|] eqn:W; cbn [bind]; [|discriminate].
      intros [= <-]. apply Hsplice; [lia|]. eapply Hlog; [|exact W]. discriminate.
    - destruct (with_log _ (success_log st)) as [new|] eqn:W; cbn [bind]; [|discriminate].
      intros [= <-]. apply Hsplice; [lia|]. eapply Hlog; [|exact W]. discriminate. }
  destruct (searches trigger2 line).
  { unfold pattern2.
    destruct (read_input _ _ _) as [[i fs]|] eqn:R; cbn [bind]; [|discriminate].
    apply read_input_advances in R.
    set (i1 := if i <? length (lines st) then S i else i).
    set (i2 := match line_at (lines st) i1 with
               | Some l => match strip l with [] => S i1 | _ => i1 end
               | None => i1
               end).
    set (i3 := if line_has (lines st) i2
                    (T "const result = await linearClient.createAgentActivity(activityInput)")
               then S i2 else i2).
    assert (H1 : i <= i1) by (unfold i1; destruct (i <? length (lines st)); lia).
    assert (H2 : i1 <= i2).
    { unfold i2. destruct (line_at (lines st) i1) as [l|]; [|lia].
      destruct (strip l); lia. }
    assert (H3 : i2 <= i3) by (unfold i3; destruct (line_has _ i2 _); lia).
    destruct (line_has (lines st) i3 (T "if (result.success)")).
    - pose proof (branch2_advances (skipn (S i3) (lines st)) (S i3) 0%Z PyNone) as B.
      destruct (branch2 _ _ _ _) as [i' log]. cbn [fst] in B.
      destruct (with_log _ log) as [new|] eqn:W; cbn [bind]; [|discriminate].
      intros [= <-]. apply Hsplice; [lia|]. eapply Hlog; [|exact W]. discriminate.
    - destruct (with_log _ PyNone) as [new|] eqn:W; cbn [bind]; [|discriminate].
      intros [= <-]. apply Hsplice; [lia|]. eapply Hlog; [|exact W]. discriminate. }
  destruct (searches trigger3 line && negb (contains (T "const result") line)).
  { unfold pattern3. destruct (searches two_parameter line).
    - intros [= <-]. exact Hstay.
    - destruct (read_call _ _ _) as [[i fs]|] eqn:R; cbn [bind]; [|discriminate].
      apply read_call_advances in R.
      intros [= <-]. apply Hsplice; [lia|discriminate]. }
  intros [= <-]. exact Hstay.
Qed.

(** An iteration never touches the lines before the cursor, and the lines
    it has not read yet stand after the new cursor in their old order: some
    block [lines[cursor:i]], never empty, is all it replaces, and the scan
    goes on after the replacement. *)
Theorem step_replaces_one_block (st st' : state) :
  cursor st < length (lines st) -> step st = Ok st' ->
  exists i, cursor st < i /\ cursor st < cursor st'
    /\ (forall k, k < cursor st -> line_at (lines st') k = line_at (lines st) k)
    /\ (forall k, line_at (lines st') (cursor st' + k) = line_at (lines st) (i + k)).
Proof.
  intros Hc Hs. destruct (@step_block st st' Hc Hs) as [i [Hi [F [K Hadv]]]].
  exists i. split; [exact Hi|]. split; [exact Hadv|]. split.
  - intros k Hk. unfold line_at.
    pose proof (nth_error_firstn (cursor st) (lines st') k) as A.
    pose proof (nth_error_firstn (cursor st) (lines st) k) as B.
    apply Nat.ltb_lt in Hk. rewrite Hk in A, B. rewrite <- A, <- B, F. reflexivity.
  - intros k. unfold line_at. rewrite <- !nth_error_skipn, K. reflexivity.
Qed.

Lemma step_replaces_witness :
  exists st', step (start_of await_without_body) = Ok st'
    /\ exists i, 0 < i /\ 0 < cursor st'
         /\ (forall k, k < 0 -> line_at (lines st') k = line_at await_without_body k)
         /\ (forall k, line_at (lines st') (cursor st' + k) = line_at await_without_body (i + k)).
Proof.
  eexists. split; [vm_compute; reflexivity|].
  apply (@step_replaces_one_block (start_of await_without_body));
    [vm_compute; lia|vm_compute; reflexivity].
Defined.

(** *** How the scanner can fail *)

Lemma start_body_raises (fs : fields) (l : text) (e : exn) :
  contains (T "body:") l = true -> start_body fs l = Raise e ->
  e = AttributeError "endswith" /\ bad_body_line l.
Proof.
  unfold start_body, bad_body_line. intros Hc.
  destruct (extract_body_start l); [discriminate|].
  intros [= <-]. repeat split. exact Hc.
Qed.

Lemma read_call_raises (rest : list text) :
  forall i fs e, read_call rest i fs = Raise e ->
                 e = AttributeError "endswith" /\ exists l, In l rest /\ bad_body_line l.
Proof.
  induction rest as [|l rest IH]; intros i fs e H; cbn [read_call] in H; [discriminate|].
  assert (Hrec : forall i' fs', read_call rest i' fs' = Raise e ->
                   e = AttributeError "endswith"
                   /\ exists l0, In l0 (l :: rest) /\ bad_body_line l0).
  { intros i' fs' H'. destruct (IH _ _ _ H') as [E [l0 [Hin Hb]]].
    split; [exact E|]. exists l0. split; [right; exact Hin|exact Hb]. }
  destruct (contains (T "agentSessionId:") l); [eapply Hrec, H|].
  destruct (contains (T "type:") l); [eapply Hrec, H|].
  destruct (contains (T "body:") l) eqn:Hb.
  { destruct (start_body fs l) as [fs'|e'] eqn:Sb; cbn [bind] in H; [eapply Hrec, H|].
    injection H as <-. destruct (start_body_raises _ _ Hb Sb) as [E B].
    split; [exact E|]. exists l. split; [left; reflexivity|exact B]. }
  destruct (body_started fs && negb (startswith (strip l) (T "}"))); [eapply Hrec, H|].
  destruct (contains (T "});") l); [discriminate|eapply Hrec, H].
Qed.

Lemma read_input_raises (rest : list text) :
  forall i fs e, read_input rest i fs = Raise e ->
                 e = AttributeError "endswith" /\ exists l, In l rest /\ bad_body_line l.
Proof.
  induction rest as [|l rest IH]; intros i fs e H; cbn [read_input] in H; [discriminate|].
  assert (Hrec : forall i' fs', read_input rest i' fs' = Raise e ->
                   e = AttributeError "endswith"
                   /\ exists l0, In l0 (l :: rest) /\ bad_body_line l0).
  { intros i' fs' H'. destruct (IH _ _ _ H') as [E [l0 [Hin Hb]]].
    split; [exact E|]. exists l0. split; [right; exact Hin|exact Hb]. }
  destruct (closing_line l); [discriminate|].
  destruct (contains (T "agentSessionId:") l); [eapply Hrec, H|].
  destruct (contains (T "type:") l); [eapply Hrec, H|].
  destruct (contains (T "body:") l) eqn:Hb.
  { destruct (start_body fs l) as [fs'|e'] eqn:Sb; cbn [bind] in H; [eapply Hrec, H|].
    injection H as <-. destruct (start_body_raises _ _ Hb Sb) as [E B].
    split; [exact E|]. exists l. split; [left; reflexivity|exact B]. }
  destruct (body_started fs); eapply Hrec, H.
Qed.

Lemma with_log_raises (new_lines : list text) (log : pyvar) (e : exn) :
  with_log new_lines log = Raise e -> e = NameError "success_log" /\ log = Unbound.
Proof.
  destruct log as [| |[|c s]]; simpl; intros H; try discriminate.
  injection H as <-. split; reflexivity.
Qed.

(** An iteration fails in one of two ways: on the unassigned name, for a
    line of pattern 1 while [success_log] has no value; or on a [body:] line
    without value among the lines below the cursor. *)
Lemma step_raises (st : state) (e : exn) :
  step st = Raise e ->
  (e = NameError "success_log" /\ success_log st = Unbound
   /\ exists line, line_at (lines st) (cursor st) = Some line
                   /\ searches trigger1 line = true)
  \/ (e = AttributeError "endswith"
      /\ exists l, In l (skipn (S (cursor st)) (lines st)) /\ bad_body_line l).
Proof.
  unfold step.
  destruct (line_at (lines st) (cursor st)) as [line|] eqn:Hl; [|discriminate].
  destruct (searches trigger1 line) eqn:T1.
  { unfold pattern1.
    destruct (read_call _ _ _) as [[i fs]|e'] eqn:R; cbn [bind].
    - destruct (line_has (lines st) i (T "if (result.success)")).
      + pose proof (@branch1_bound_log (lines st) i (length (skipn (S i) (lines st)))
                      (skipn (S i) (lines st)) (S i) 0%Z false PyNone (le_n _)) as B.
        destruct (branch1 _ _ _ _ _ _ _) as [i' log]. cbn [snd] in B.
        destruct (with_log _ log) as [new|e''] eqn:W; cbn [bind]; [discriminate|].
        apply with_log_raises in W as [_ W]. exfalso. apply B; [discriminate|exact W].
      + destruct (with_log _ (success_log st)) as [new|e''] eqn:W; cbn [bind]; [discriminate|].
        intros [= <-]. apply with_log_raises in W as [E W]. left.
        split; [exact E|]. split; [exact W|]. exists line. split; [reflexivity|exact T1].
    - intros [= <-]. right. eapply read_call_raises, R. }
  destruct (searches trigger2 line).
  { unfold pattern2.
    destruct (read_input _ _ _) as [[i fs]|e'] eqn:R; cbn [bind].
    - match goal with
      | |- context [if line_has (lines st) ?j (T "if (result.success)") then _ else _] =>
          destruct (line_has (lines st) j (T "if (result.success)"));
          [pose proof (@branch2_bound_log (skipn (S j) (lines st)) (S j) 0%Z PyNone) as B;
           destruct (branch2 (skipn (S j) (lines st)) (S j) 0 PyNone) as [i' log']|]
      end.
      + cbn [snd] in B.
        destruct (with_log _ log') as [new|e''] eqn:W; cbn [bind]; [discriminate|].
        apply with_log_raises in W as [_ W]. exfalso. apply B; [discriminate|exact W].
      + cbn [with_log bind]. discriminate.
    - intros [= <-]. right. eapply read_input_raises, R. }
  destruct (searches trigger3 line && negb (contains (T "const result") line)).
  { unfold pattern3. destruct (searches two_parameter line); [discriminate|].
    destruct (read_call _ _ _) as [[i fs]|e'] eqn:R; cbn [bind]; [discriminate|].
    intros [= <-]. right. eapply read_call_raises, R. }
  discriminate.
Qed.

(** Once [success_log] has a value it keeps one. *)
Lemma step_keeps_log_bound (st st' : state) :
  step st = Ok st' -> success_log st <> Unbound -> success_log st' <> Unbound.
Proof.
  unfold step. intros H Hb.
  destruct (line_at (lines st) (cursor st)) as [line|]; [|injection H as <-; exact Hb].
  destruct (searches trigger1 line).
  { unfold pattern1 in H.
    destruct (read_call _ _ _) as [[i fs]|]; cbn [bind] in H; [|discriminate].
    destruct (line_has (lines st) i (T "if (result.success)")).
    - pose proof (@branch1_bound_log (lines st) i (length (skipn (S i) (lines st)))
                    (skipn (S i) (lines st)) (S i) 0%Z false PyNone (le_n _)) as B.
      destruct (branch1 _ _ _ _ _ _ _) as [i' log]. cbn [snd] in B.
      destruct (with_log _ log); cbn [bind] in H; [|discriminate].
      injection H as <-. cbn [splice success_log]. apply B. discriminate.
    - destruct (with_log _ (success_log st)); cbn [bind] in H; [|discriminate].
      injection H as <-. exact Hb. }
  destruct (searches trigger2 line).
  { unfold pattern2 in H.
    destruct (read_input _ _ _) as [[i fs]|]; cbn [bind] in H; [|discriminate].
    match type of H with
    | context [if line_has (lines st) ?j (T "if (result.success)") then _ else _] =>
        destruct (line_has (lines st) j (T "if (result.success)"));
        [pose proof (@branch2_bound_log (skipn (S j) (lines st)) (S j) 0%Z PyNone) as B;
         destruct (branch2 (skipn (S j) (lines st)) (S j) 0 PyNone) as [i' log']|]
    end.
    - cbn [snd] in B. destruct (with_log _ log'); cbn [bind] in H; [|discriminate].
      injection H as <-. cbn [splice success_log]. apply B. discriminate.
    - cbn [with_log bind] in H. injection H as <-. discriminate. }
  destruct (searches trigger3 line && negb (contains (T "const result") line)).
  { unfold pattern3 in H. destruct (searches two_parameter line);
      [injection H as <-; exact Hb|].
    destruct (read_call _ _ _) as [[i fs]|]; cbn [bind] in H; [|discriminate].
    injection H as <-. exact Hb. }
  injection H as <-. exact Hb.
Qed.

Lemma in_skipn_le {A : Type} (a b : nat) (ls : list A) (l : A) :
  a <= b -> In l (skipn b ls) -> In l (skipn a ls).
Proof.
  intros Hab H. replace b with ((b - a) + a) in H by lia.
  rewrite <- skipn_skipn in H. eapply in_skipn, H.
Qed.

Lemma main_loop_crash (ls : list text) (fuel : nat) :
  forall st e,
    (forall l, In l (skipn (cursor st) (lines st)) -> In l ls) ->
    main_loop fuel st = Crashed e ->
    (e = NameError "success_log" /\ success_log st = Unbound
     /\ exists line, In line ls /\ searches trigger1 line = true)
    \/ (e = AttributeError "endswith" /\ exists l, In l ls /\ bad_body_line l).
Proof.
  induction fuel as [|fuel IH]; intros st e Hst; simpl;
    destruct (cursor st <? length (lines st)) eqn:Hc; try discriminate.
  apply Nat.ltb_lt in Hc.
  destruct (step st) as [st'|e'] eqn:E.
  - intros H.
    destruct (@step_block st st' Hc E) as [i [Hi [_ [K _]]]].
    destruct (IH st' e) as [[E1 [U X]]|R]; [|exact H| |right; exact R].
    + intros l Hl. rewrite K in Hl. apply Hst. eapply in_skipn_le; [|exact Hl]. lia.
    + left. split; [exact E1|]. split; [|exact X].
      destruct (success_log st) eqn:L; [reflexivity| |];
        exfalso; apply (@step_keeps_log_bound st st' E); [rewrite L; discriminate|exact U
                                                         |rewrite L; discriminate|exact U].
  - intros [= <-]. destruct (step_raises _ E) as [[E1 [U [line [Hl T1]]]]|[E1 [l [Hl B]]]].
    + left. split; [exact E1|]. split; [exact U|]. exists line. split; [|exact T1].
      apply Hst. unfold line_at in Hl. rewrite <- (Nat.add_0_r (cursor st)) in Hl.
      rewrite <- nth_error_skipn in Hl. eapply nth_error_In, Hl.
    + right. split; [exact E1|]. exists l. split; [|exact B].
      apply Hst. eapply in_skipn_le; [|exact Hl]. lia.
Qed.

(** The script can stop with an exception in two ways only.  With the
    [NameError] on [success_log], which needs a line that opens pattern 1;
    from a state in which [success_log] has a value this cannot happen any
    more.  Or with the [AttributeError] on [None.endswith], which needs a
    line of the file that holds [body:] with no value after it. *)
Theorem scanner_fails_in_two_ways (ls : list text) (e : exn) :
  (fix_all_create_activity ls = Crashed e ->
   (e = NameError "success_log"
    /\ exists line, In line ls /\ searches trigger1 line = true)
   \/ (e = AttributeError "endswith" /\ exists l, In l ls /\ bad_body_line l))
  /\ (forall fuel st, success_log st <> Unbound -> main_loop fuel st = Crashed e ->
                      e = AttributeError "endswith").
Proof.
  split.
  - unfold fix_all_create_activity. intros H.
    apply (@main_loop_crash ls) in H.
    + destruct H as [[E [_ X]]|R]; [left; split; assumption|right; exact R].
    + cbn [cursor lines skipn]. intros l Hl. exact Hl.
  - intros fuel st Hb H.
    apply (@main_loop_crash (skipn (cursor st) (lines st))) in H; [|intros l Hl; exact Hl].
    destruct H as [[_ [U _]]|[E _]]; [congruence|exact E].
Qed.

Lemma scanner_fails_witness :
  (NameError "success_log" = NameError "success_log"
   /\ exists line, In line inline_without_branch /\ searches trigger1 line = true)
  \/ (NameError "success_log" = AttributeError "endswith"
      /\ exists l, In l inline_without_branch /\ bad_body_line l).
Proof.
  apply (proj1 (scanner_fails_in_two_ways inline_without_branch (NameError "success_log"))).
  vm_compute. reflexivity.
Defined.

(** *** Reading the fields *)

Lemma contains_skip_space (c : ascii) (p w s : text) :
  is_space c = false -> forallb is_space w = true ->
  contains (c :: p) (w ++ s) = contains (c :: p) s.
Proof.
  intros Hc. induction w as [|a w IH]; intros Hw; [reflexivity|].
  cbn [forallb] in Hw. apply andb_prop in Hw as [Ha Hw].
  cbn [app contains]. rewrite IH by exact Hw.
  unfold startswith. cbn [strip_prefix]. rewrite (space_differs c a Hc Ha). reflexivity.
Qed.

Lemma strip_core (w w' m : text) (a c : ascii) :
  forallb is_space w = true -> forallb is_space w' = true ->
  is_space a = false -> is_space c = false ->
  strip (w ++ a :: m ++ c :: w') = a :: m ++ [c].
Proof.
  intros Hw Hw' Ha Hc. unfold strip, lstrip. rewrite dropwhile_all by exact Hw.
  cbn [dropwhile]. rewrite Ha.
  change (a :: m ++ c :: w') with ((a :: m) ++ c :: w').
  rewrite rstrip_trailing by assumption. reflexivity.
Qed.




Lemma strip_comma_last (x : text) : strip_comma (x ++ T ",") = x.
Proof.
  unfold strip_comma. change (T ",") with [","%char].
  rewrite endswith_last. unfold drop_last. apply removelast_last.
Qed.



(** *** The three idioms, line by line *)


Lemma skipn_before {A : Type} (before rest : list A) (n : nat) :
  skipn (length before + n) (before ++ rest) = skipn n rest.
Proof.
  rewrite skipn_app, skipn_all2 by lia.
  replace (length before + n - length before) with n by lia. reflexivity.
Qed.

Lemma line_at_before (before rest : list text) (l : text) :
  line_at (before ++ l :: rest) (length before) = Some l.
Proof.
  unfold line_at. rewrite nth_error_app2 by lia. rewrite Nat.sub_diag. reflexivity.
Qed.








Lemma lacks_inv (p l : text) : lacks p l = true -> contains p l = false.
Proof. unfold lacks. apply negb_true_iff. Qed.






(** *** The [activityInput] idiom *)

Lemma lead_unique (x w : text) (a c : ascii) (s r : text) :
  forallb is_space x = true -> forallb is_space w = true ->
  is_space a = false -> is_space c = false ->
  x ++ a :: s = w ++ c :: r -> x = w /\ a = c /\ s = r.
Proof.
  intros Hx Hw Ha Hc. revert w Hw.
  induction x as [|b x IH]; intros [|d w] Hw E; cbn [app] in E.
  - injection E as -> ->. repeat split.
  - injection E as -> _. cbn [forallb] in Hw. apply andb_prop in Hw as [Hw _]. congruence.
  - injection E as -> _. cbn [forallb] in Hx. apply andb_prop in Hx as [Hx _]. congruence.
  - injection E as -> E. cbn [forallb] in Hx, Hw.
    apply andb_prop in Hx as [_ Hx]. apply andb_prop in Hw as [_ Hw].
    destruct (IH Hx w Hw E) as [-> [-> ->]]. repeat split.
Qed.

(** A closing line is white space, a closing brace and what may follow
    it. *)
Lemma closing_tail (w : text) (c : ascii) (rest : text) :
  forallb is_space w = true -> is_space c = false ->
  closing_line (w ++ c :: rest) = true ->
  c = "}"%char
  /\ exists res, In res (run (seq [Opt (Lit (T ";")); Star space; Eos]) rest []).
Proof.
  intros Hw Hc. unfold closing_line, re_match.
  destruct (run _ (w ++ c :: rest) []) as [|p l] eqn:E; [discriminate|]. intros _.
  assert (Hin : In p (run (seq [Star space; Lit (T "}"); Opt (Lit (T ";")); Star space; Eos])
                        (w ++ c :: rest) []))
    by (rewrite E; left; reflexivity).
  apply in_run_seq in Hin as [e1 [s1 [H1 Hin]]].
  apply in_run_seq in Hin as [e2 [s2 [H2 Hin]]].
  cbn [run] in H1. apply in_map_iff in H1 as [s1' [[= <- <-] H1]].
  apply in_greedy in H1 as [x [Hx H1]].
  apply in_run_lit in H2 as [-> H2]. subst s1'.
  change (T "}" ++ s2) with ("}"%char :: s2) in H1.
  symmetry in H1. destruct (@lead_unique x w "}"%char c s2 rest Hx Hw eq_refl Hc H1) as [_ [<- <-]].
  split; [reflexivity|]. exists p. exact Hin.
Qed.

Lemma closing_needs_brace (w : text) (c : ascii) (rest : text) :
  forallb is_space w = true -> is_space c = false -> c <> "}"%char ->
  closing_line (w ++ c :: rest) = false.
Proof.
  intros Hw Hc Hne. destruct (closing_line (w ++ c :: rest)) eqn:E; [|reflexivity].
  destruct (@closing_tail w c rest Hw Hc E) as [H _]. congruence.
Qed.

















(** The second and the third block recorded in [fix_last_three.py], line by
    line. *)
Lemma recorded_lines_are_block3 :
  concat Recorded.lines3 = tabs 3 ++ LiteralBlocks.old3 ++ [nl].
Proof. vm_compute. reflexivity. Qed.

Lemma recorded_lines_are_block2 :
  concat Recorded.lines2 = tabs 3 ++ LiteralBlocks.old2 ++ [nl].
Proof. vm_compute. reflexivity. Qed.


(** *** A [body:] line without value *)

Lemma search_needs_first (c : ascii) (l : text) (rs : list regex) (s : text) :
  (forall a, In a s -> Ascii.eqb c a = false) ->
  re_search (seq (Lit (c :: l) :: rs)) s = None.
Proof.
  induction s as [|a s IH]; intros H; [reflexivity|].
  cbn [re_search]. rewrite lit_fails_on by (apply H; left; reflexivity).
  apply IH. intros b Hb. apply H. right. exact Hb.
Qed.

Lemma contains_needs_first (c : ascii) (p s : text) :
  (forall a, In a s -> Ascii.eqb c a = false) -> contains (c :: p) s = false.
Proof.
  induction s as [|a s IH]; intros H; [reflexivity|].
  cbn [contains]. unfold startswith. cbn [strip_prefix].
  rewrite (H a) by (left; reflexivity). apply IH.
  intros b Hb. apply H. right. exact Hb.
Qed.

Lemma newlines_differ (c : ascii) (e : text) (a : ascii) :
  Ascii.eqb c nl = false -> forallb (only nl) e = true -> In a e -> Ascii.eqb c a = false.
Proof.
  intros Hc He Ha. assert (H : only nl a = true) by (revert a Ha; apply forallb_forall, He).
  unfold only in H. apply Ascii.eqb_eq in H. subst a. exact Hc.
Qed.

(** [body:] followed by nothing but the end of the line gives no value. *)
Lemma no_body_value (w e : text) :
  forallb is_space w = true -> forallb (only nl) e = true ->
  extract_body_start (w ++ T "body:" ++ e) = None.
Proof.
  intros Hw He. unfold extract_body_start. rewrite re_search_skip.
  2:{ intros a s' Ha. apply lit_fails_on. apply space_differs; [reflexivity|].
      revert a Ha. apply forallb_forall, Hw. }
  assert (M : re_match (seq [Lit (T "body:"); Star space; Grp 1 (Plus dot)])
                (T "body:" ++ e) = None).
  { unfold re_match.
    destruct (run _ (T "body:" ++ e) []) as [|p l] eqn:E; [reflexivity|]. exfalso.
    assert (Hin : In p (run (seq [Lit (T "body:"); Star space; Grp 1 (Plus dot)])
                          (T "body:" ++ e) []))
      by (rewrite E; left; reflexivity).
    apply in_run_seq in Hin as [e1 [s1 [H1 Hin]]].
    apply in_run_seq in Hin as [e2 [s2 [H2 Hin]]].
    apply in_run_seq in Hin as [e3 [s3 [H3 _]]].
    apply in_run_lit in H1 as [_ H1]. apply app_inv_head in H1. subst s1.
    apply run_suffix in H2 as [x H2].
    cbn [run] in H3. apply in_map_iff in H3 as [[e4 s4] [_ H3]].
    apply in_run_plus in H3 as [_ [y [Hne [Hy H3]]]].
    destruct y as [|a y]; [congruence|]. clear Hne.
    cbn [forallb] in Hy. apply andb_prop in Hy as [Ha _].
    assert (Hin' : In a e) by (rewrite H2, H3; apply in_or_app; right; left; reflexivity).
    assert (H : only nl a = true) by (apply (proj1 (forallb_forall _ _) He), Hin').
    unfold only in H. apply Ascii.eqb_eq in H. rewrite H in Ha. discriminate. }
  change (T "body:" ++ e) with ("b"%char :: T "ody:" ++ e) in *.
  cbn [re_search]. rewrite M.
  rewrite (@search_needs_first "b"%char (T "ody:")); [reflexivity|].
  intros a Ha. apply in_app_or in Ha as [Ha|Ha].
  - destruct Ha as [<-|[<-|[<-|[<-|[]]]]]; reflexivity.
  - eapply newlines_differ; [reflexivity|exact He|exact Ha].
Qed.

Lemma bare_body_facts (w e : text) :
  forallb is_space w = true -> forallb (only nl) e = true ->
  closing_line (w ++ T "body:" ++ e) = false
  /\ contains (T "agentSessionId:") (w ++ T "body:" ++ e) = false
  /\ contains (T "type:") (w ++ T "body:" ++ e) = false
  /\ contains (T "body:") (w ++ T "body:" ++ e) = true.
Proof.
  intros Hw He.
  assert (K : forall c p, is_space c = false -> Ascii.eqb c nl = false ->
                (forall a, In a (T "body:") -> Ascii.eqb c a = false) ->
                contains (c :: p) (w ++ T "body:" ++ e) = false).
  { intros c p Hc Hn Hb. rewrite contains_skip_space by assumption.
    apply contains_needs_first. intros a Ha. apply in_app_or in Ha as [Ha|Ha];
      [apply Hb, Ha|eapply newlines_differ; eassumption]. }
  split; [|split; [|split]].
  - apply (@closing_needs_brace w "b"%char); [exact Hw|reflexivity|discriminate].
  - apply (K "a"%char); try reflexivity.
    intros a [<-|[<-|[<-|[<-|[<-|[]]]]]]; reflexivity.
  - apply (K "t"%char); try reflexivity.
    intros a [<-|[<-|[<-|[<-|[<-|[]]]]]]; reflexivity.
  - apply contains_intro.
Qed.

Lemma brace_needed (p q l : text) :
  contains (T "}") l = false -> contains (p ++ T "}" ++ q) l = false.
Proof.
  intros H. destruct (contains (p ++ T "}" ++ q) l) eqn:E; [|reflexivity].
  apply contains_spec in E as [a [b ->]].
  rewrite <- !app_assoc, app_assoc, contains_intro in H. discriminate.
Qed.

Lemma plain_line_inv (l : text) :
  lacks (T "}") l && lacks (T "body:") l = true ->
  closing_line l = false /\ contains (T "});") l = false /\ contains (T "body:") l = false.
Proof.
  intros H. apply andb_prop in H as [H1 H2]. apply lacks_inv in H1, H2.
  split; [|split; [|exact H2]].
  - unfold closing_line. rewrite match_needs_second_literal by exact H1. reflexivity.
  - apply (@brace_needed [] (T ");")), H1.
Qed.

(** Lines without closing brace and without [body:] do not end the loops
    and raise nothing. *)
Lemma read_call_pass (rest : list text) (r0 : list text) :
  plain_lines r0 = true ->
  forall i fs, exists fs', read_call (r0 ++ rest) i fs = read_call rest (i + length r0) fs'.
Proof.
  induction r0 as [|l r0 IH]; intros H i fs.
  - exists fs. cbn [app length]. rewrite Nat.add_0_r. reflexivity.
  - cbn [plain_lines forallb] in H. apply andb_prop in H as [Hl H].
    destruct (plain_line_inv _ Hl) as [_ [Hc Hb]].
    cbn [app read_call length]. rewrite Hb, Hc.
    replace (i + S (length r0)) with (S i + length r0) by lia.
    destruct (contains (T "agentSessionId:") l); [apply IH, H|].
    destruct (contains (T "type:") l); [apply IH, H|].
    destruct (body_started fs && negb (startswith (strip l) (T "}"))); apply IH, H.
Qed.

Lemma read_input_pass (rest : list text) (r0 : list text) :
  plain_lines r0 = true ->
  forall i fs, exists fs', read_input (r0 ++ rest) i fs = read_input rest (i + length r0) fs'.
Proof.
  induction r0 as [|l r0 IH]; intros H i fs.
  - exists fs. cbn [app length]. rewrite Nat.add_0_r. reflexivity.
  - cbn [plain_lines forallb] in H. apply andb_prop in H as [Hl H].
    destruct (plain_line_inv _ Hl) as [Hc [_ Hb]].
    cbn [app read_input length]. rewrite Hb, Hc.
    replace (i + S (length r0)) with (S i + length r0) by lia.
    destruct (contains (T "agentSessionId:") l); [apply IH, H|].
    destruct (contains (T "type:") l); [apply IH, H|].
    destruct (body_started fs); apply IH, H.
Qed.

Lemma readers_raise (r0 post : list text) (w e : text) (i : nat) (fs : fields) :
  forallb is_space w = true -> forallb (only nl) e = true -> plain_lines r0 = true ->
  read_call (r0 ++ (w ++ T "body:" ++ e) :: post) i fs = Raise (AttributeError "endswith")
  /\ read_input (r0 ++ (w ++ T "body:" ++ e) :: post) i fs
     = Raise (AttributeError "endswith").
Proof.
  intros Hw He Hr.
  destruct (bare_body_facts _ _ Hw He) as [F1 [F2 [F3 F4]]].
  pose proof (no_body_value _ _ Hw He) as N.
  split.
  - destruct (@read_call_pass ((w ++ T "body:" ++ e) :: post) r0 Hr i fs) as [fs' ->].
    cbn [read_call]. rewrite F2, F3, F4. unfold start_body. rewrite N. reflexivity.
  - destruct (@read_input_pass ((w ++ T "body:" ++ e) :: post) r0 Hr i fs) as [fs' ->].
    cbn [read_input]. rewrite F1, F2, F3, F4. unfold start_body. rewrite N. reflexivity.
Qed.

(** The main loop walks over lines that start no idiom. *)
Lemma main_loop_walk (q : list text) :
  quiet q = true ->
  forall before rest fuel log,
    main_loop (length q + fuel)
      {| lines := before ++ q ++ rest; cursor := length before; success_log := log |}
    = main_loop fuel
        {| lines := before ++ q ++ rest; cursor := length before + length q;
           success_log := log |}.
Proof.
  induction q as [|l q IH]; intros Hq before rest fuel log.
  - cbn [length Nat.add]. rewrite Nat.add_0_r. reflexivity.
  - cbn [quiet forallb] in Hq. apply andb_prop in Hq as [Hl Hq].
    apply negb_true_iff in Hl. unfold triggers in Hl.
    apply orb_false_elim in Hl as [Hl Q3]. apply orb_false_elim in Hl as [Q1 Q2].
    cbn [length Nat.add main_loop lines cursor].
    assert (Hlt : (length before <? length (before ++ (l :: q) ++ rest)) = true)
      by (apply Nat.ltb_lt; rewrite !length_app; cbn [length]; lia).
    rewrite Hlt. unfold step. cbn [lines cursor success_log].
    cbn [app]. rewrite line_at_before, Q1, Q2, Q3.
    pose proof (IH Hq (before ++ [l]) rest fuel log) as E.
    rewrite <- !app_assoc, length_app in E. cbn [app length] in E.
    replace (length before + 1) with (S (length before)) in E by lia.
    rewrite E. f_equal. f_equal. lia.
Qed.

(** A file whose first idiom, of any of the three kinds, has its [body:]
    key at the end of a line, the value starting on the next one: the script
    stops on [body_start.endswith] with an [AttributeError] and writes
    nothing. *)
Theorem body_value_on_next_line_raises (q r0 post : list text) (line w e : text) :
  quiet q = true -> triggers line = true -> searches two_parameter line = false ->
  plain_lines r0 = true ->
  forallb is_space w = true -> forallb (only nl) e = true ->
  fix_all_create_activity (q ++ line :: r0 ++ (w ++ T "body:" ++ e) :: post)
  = Crashed (AttributeError "endswith").
Proof.
  intros Hq Ht H2 Hr Hw He. unfold fix_all_create_activity.
  set (tl := line :: r0 ++ (w ++ T "body:" ++ e) :: post).
  replace (length (q ++ tl)) with (length q + S (length r0 + S (length post)))
    by (unfold tl; rewrite !length_app; cbn [length]; rewrite length_app; cbn [length]; lia).
  pose proof (@main_loop_walk q Hq [] tl (S (length r0 + S (length post))) Unbound) as E.
  cbn [app length Nat.add] in E. rewrite E.
  cbn [main_loop lines cursor].
  assert (Hlt : (length q <? length (q ++ tl)) = true)
    by (apply Nat.ltb_lt; unfold tl; rewrite length_app; cbn [length]; lia).
  rewrite Hlt.
  assert (S3 : step {| lines := q ++ tl; cursor := length q; success_log := Unbound |}
               = Raise (AttributeError "endswith")).
  { unfold step. cbn [lines cursor success_log]. unfold tl at 1.
    rewrite line_at_before.
    assert (Sk : skipn (S (length q)) (q ++ tl) = r0 ++ (w ++ T "body:" ++ e) :: post).
    { replace (S (length q)) with (length q + 1) by lia. rewrite skipn_before. reflexivity. }
    destruct (@readers_raise r0 post w e (S (length q)) no_fields Hw He Hr) as [Rc Ri].
    unfold triggers in Ht.
    destruct (searches trigger1 line).
    { unfold pattern1. cbn [lines cursor]. rewrite Sk, Rc. reflexivity. }
    destruct (searches trigger2 line).
    { unfold pattern2. cbn [lines cursor]. rewrite Sk, Ri. reflexivity. }
    cbn [orb] in Ht. rewrite Ht.
    unfold pattern3. cbn [lines cursor]. rewrite H2, Sk, Rc. reflexivity. }
  rewrite S3. reflexivity.
Qed.

Lemma body_value_witness :
  fix_all_create_activity
    ([T "run();"]
     ++ src 4 (T "await linearClient.createAgentActivity({")
     :: [src 8 (T "agentSessionId: sessionId,"); src 8 (T "content: {")]
     ++ (T "            " ++ T "body:" ++ [nl]) :: [src 16 (T "text,")])
  = Crashed (AttributeError "endswith").
Proof.
  apply (@body_value_on_next_line_raises [T "run();"]
           [src 8 (T "agentSessionId: sessionId,"); src 8 (T "content: {")]
           [src 16 (T "text,")] (src 4 (T "await linearClient.createAgentActivity({"))
           (T "            ") [nl]); vm_compute; reflexivity.
Defined.

(** *** A body over several lines *)

Lemma continues_inv (p : text * text) :
  continues p = true ->
  forallb is_space (fst p) = true
  /\ (exists a m, snd p = a :: m /\ is_space a = false /\ a <> "}"%char)
  /\ contains (T "agentSessionId:") (continuation p) = false
  /\ contains (T "type:") (continuation p) = false
  /\ contains (T "body:") (continuation p) = false.
Proof.
  unfold continues. intros H.
  repeat match type of H with
         | _ && _ = true => let H' := fresh "R" in apply andb_prop in H as [H H']
         end.
  apply lacks_inv in R, R0, R1. repeat split; try assumption.
  destruct (snd p) as [|a m]; [discriminate|]. exists a, m.
  split; [reflexivity|]. cbn [no_leading_space] in R3. apply negb_true_iff in R3.
  split; [exact R3|]. intros ->. discriminate.
Qed.

Lemma continuation_facts (p : text * text) :
  continues p = true ->
  closing_line (continuation p) = false
  /\ strip (continuation p) = snd p ++ T ","
  /\ startswith (snd p ++ T ",") (T "}") = false
  /\ snd p ++ T "," <> [].
Proof.
  intros H. destruct (continues_inv _ H) as [Hw [[a [m [E [Ha Hb]]]] _]].
  unfold continuation. rewrite E. split; [|split; [|split]].
  - apply (@closing_needs_brace (fst p) a); assumption.
  - change ((a :: m) ++ T "," ++ [nl]) with (a :: m ++ ","%char :: [nl]).
    rewrite strip_core by (assumption || reflexivity). reflexivity.
  - unfold startswith. cbn [T list_ascii_of_string app strip_prefix].
    destruct (Ascii.eqb "}" a) eqn:Q; [|reflexivity].
    apply Ascii.eqb_eq in Q. congruence.
  - discriminate.
Qed.

Lemma with_body_app (fs : fields) (xs ys : list text) :
  with_body (with_body fs xs) ys = with_body fs (xs ++ ys).
Proof. unfold with_body. cbn [session_id type_val body_lines body_started]. rewrite app_assoc. reflexivity. Qed.

Lemma add_body_with (fs : fields) (x : text) : add_body fs x = with_body fs [x].
Proof. reflexivity. Qed.

(** Once the body has started, each line that continues it gives one more
    piece of the body, without its indentation, its newline and its trailing
    comma, in all three loops; [body_str] then joins the pieces with single
    spaces, so the commas that ended the lines are lost. *)
Theorem continuation_lines_lose_commas (ps : list (text * text)) (rest : list text)
    (i : nat) (fs : fields) :
  body_started fs = true -> forallb continues ps = true ->
  read_call (map continuation ps ++ rest) i fs
  = read_call rest (i + length ps) (with_body fs (map snd ps))
  /\ read_input (map continuation ps ++ rest) i fs
     = read_input rest (i + length ps) (with_body fs (map snd ps)).
Proof.
  intros Hs Hps. revert i fs Hs.
  induction ps as [|p ps IH]; intros i fs Hs.
  - cbn [map app length]. rewrite Nat.add_0_r.
    assert (E : with_body fs [] = fs)
      by (destruct fs; unfold with_body; cbn; rewrite app_nil_r; reflexivity).
    rewrite E. split; reflexivity.
  - cbn [forallb] in Hps. apply andb_prop in Hps as [Hp Hps].
    destruct (continues_inv _ Hp) as [_ [[a0 [m0 [E0 _]]] [K1 [K2 K3]]]].
    destruct (continuation_facts _ Hp) as [F1 [F2 [F3 F4]]].
    destruct (IH Hps (S i) (with_body fs [snd p]) Hs) as [IH1 IH2].
    rewrite with_body_app in IH1, IH2.
    cbn [map app length read_call read_input].
    replace (i + S (length ps)) with (S i + length ps) by lia.
    rewrite F1, K1, K2, K3, Hs, F2, F3, strip_comma_last.
    cbn [negb andb]. split.
    + rewrite E0 at 1. rewrite add_body_with. exact IH1.
    + destruct (snd p ++ T ",") as [|a m]; [congruence|].
      rewrite add_body_with. exact IH2.
Qed.

Lemma continuation_lines_witness :
  read_call (map continuation [(T "    ", T "a: 1"); (T "    ", T "b: 2")]
             ++ [src 4 (T "});")]) 5
    {| session_id := None; type_val := None; body_lines := [T "f({"];
       body_started := true |}
  = read_call [src 4 (T "});")] (5 + length [(T "    ", T "a: 1"); (T "    ", T "b: 2")])
      (with_body {| session_id := None; type_val := None; body_lines := [T "f({"];
                    body_started := true |}
         (map snd [(T "    ", T "a: 1"); (T "    ", T "b: 2")]))
  /\ read_input (map continuation [(T "    ", T "a: 1"); (T "    ", T "b: 2")]
                 ++ [src 4 (T "});")]) 5
       {| session_id := None; type_val := None; body_lines := [T "f({"];
          body_started := true |}
     = read_input [src 4 (T "});")] (5 + length [(T "    ", T "a: 1"); (T "    ", T "b: 2")])
         (with_body {| session_id := None; type_val := None; body_lines := [T "f({"];
                       body_started := true |}
            (map snd [(T "    ", T "a: 1"); (T "    ", T "b: 2")])).
Proof. apply continuation_lines_lose_commas; vm_compute; reflexivity. Defined.

End LineScannerMore.

(** ** The literal-block rewriter *)

Section LiteralBlocksMore.

Import LiteralBlocks.

Lemma apply_fix_console (old new ok notfound : text) (st : state) :
  length (console (apply_fix old new ok notfound st)) = S (length (console st)).
Proof.
  unfold apply_fix. destruct (contains old (content st)); cbn [print console];
    rewrite length_app; cbn [length]; lia.
Qed.

Lemma report_counts_console (suffix : text) (st : state) :
  length (console (report_counts suffix st)) = S (S (length (console st)))
  /\ content (report_counts suffix st) = content st.
Proof.
  unfold report_counts. cbn [print console content].
  rewrite !length_app. cbn [length]. split; [lia|reflexivity].
Qed.

Lemma line_count_app (s t : text) : line_count (s ++ t) = line_count s + line_count t.
Proof. unfold line_count. rewrite filter_app, length_app. reflexivity. Qed.

Lemma line_count_uint (d : Decimal.uint) :
  line_count (T (NilZero.string_of_uint d)) = 0
  /\ line_count (T (NilEmpty.string_of_uint d)) = 0.
Proof.
  assert (H : line_count (T (NilEmpty.string_of_uint d)) = 0)
    by (induction d; cbn; (assumption || reflexivity)).
  split; [|exact H]. destruct d; exact H.
Qed.

Lemma line_count_nat (n : nat) : line_count (str_of_nat n) = 0.
Proof. unfold str_of_nat. apply line_count_uint. Qed.

Lemma stdout_print (msg : text) (st : state) :
  line_count (stdout (print msg st)) = line_count (stdout st) + line_count msg + 1.
Proof.
  unfold stdout, print. cbn [console]. rewrite map_app, concat_app, line_count_app.
  cbn [map concat]. rewrite app_nil_r, line_count_app.
  change (line_count [nl]) with 1. apply Nat.add_assoc.
Qed.

Lemma stdout_apply_fix (old new ok notfound : text) (st : state) :
  line_count ok = 0 -> line_count notfound = 0 ->
  line_count (stdout (apply_fix old new ok notfound st)) = line_count (stdout st) + 1.
Proof.
  intros Hok Hno. unfold apply_fix. destruct (contains old (content st));
    rewrite stdout_print; [rewrite Hok|rewrite Hno]; unfold stdout; cbn [console]; lia.
Qed.

Lemma stdout_report_counts (suffix : text) (st : state) :
  line_count suffix = 0 ->
  line_count (stdout (report_counts suffix st)) = line_count (stdout st) + 2.
Proof.
  intros Hs. unfold report_counts. rewrite !stdout_print, !line_count_app, !line_count_nat, Hs.
  cbn [print content].
  change (line_count (T "  createAgentActivity calls: ")) with 0.
  change (line_count (T "  result.success checks: ")) with 0. lia.
Qed.

(** The whole script on a file that holds none of the three stored blocks:
    the content written back is the content read, and the nine [print] calls
    give the two headers (the second starts with a newline, so an empty line
    precedes it in the output), the same two counts before and after, and the
    three messages saying that the pattern could not be found.  On any file
    the script makes nine [print] calls, one report per fix whether the block
    was found or not, and these put ten lines on standard output. *)
Theorem file_without_blocks_written_back (c : text) :
  (contains old1 c = false -> contains old2 c = false -> contains old3 c = false ->
   fix_last_three c
   = {| content := c;
        console :=
          [T "Before fixes:";
           T "  createAgentActivity calls: " ++ str_of_nat (count (T "createAgentActivity") c);
           T "  result.success checks: " ++ str_of_nat (count (T "result.success") c);
           missing 1; missing 2; missing 3;
           nl :: T "After fixes:";
           T "  createAgentActivity calls: " ++ str_of_nat (count (T "createAgentActivity") c);
           T "  result.success checks: " ++ str_of_nat (count (T "result.success") c)
             ++ T " (should be 2 - from downloadAttachment)"] |})
  /\ length (console (fix_last_three c)) = 9
  /\ line_count (stdout (fix_last_three c)) = 10.
Proof.
  split; [|split].
  - intros H1 H2 H3. unfold fix_last_three, fix1, fix2, fix3, apply_fix, report_counts.
    cbn [print content console app]. rewrite H1. cbn [print content console app].
    rewrite H2. cbn [print content console app]. rewrite H3.
    cbn [print content console app]. rewrite app_nil_r. reflexivity.
  - unfold fix_last_three, fix1, fix2, fix3.
    rewrite (proj1 (report_counts_console _ _)). cbn [print console].
    rewrite length_app, !apply_fix_console, (proj1 (report_counts_console _ _)).
    reflexivity.
  - unfold fix_last_three, fix1, fix2, fix3.
    rewrite stdout_report_counts by reflexivity. rewrite stdout_print.
    rewrite !stdout_apply_fix by reflexivity.
    rewrite stdout_report_counts by reflexivity. rewrite stdout_print.
    reflexivity.
Qed.

Lemma file_without_blocks_witness :
  fix_last_three (T "x = 1;")
  = {| content := T "x = 1;";
       console :=
         [T "Before fixes:";
          T "  createAgentActivity calls: "
            ++ str_of_nat (count (T "createAgentActivity") (T "x = 1;"));
          T "  result.success checks: "
            ++ str_of_nat (count (T "result.success") (T "x = 1;"));
          missing 1; missing 2; missing 3;
          nl :: T "After fixes:";
          T "  createAgentActivity calls: "
            ++ str_of_nat (count (T "createAgentActivity") (T "x = 1;"));
          T "  result.success checks: "
            ++ str_of_nat (count (T "result.success") (T "x = 1;"))
            ++ T " (should be 2 - from downloadAttachment)"] |}.
Proof.
  apply (proj1 (file_without_blocks_written_back (T "x = 1;"))); vm_compute; reflexivity.
Defined.

End LiteralBlocksMore.

(** ** The regex rewriter on every match of patterns 1 and 3 *)

Section OccurrenceFacts.

Import Idiom RegexRewriter Occurrence.
























End OccurrenceFacts.

(** ** The content type and its constant *)

Section TypeConstantFacts.

Import Idiom LineScanner RegexRewriter Occurrence Shapes.








End TypeConstantFacts.
